(** * FreeNASISCSIDriver: a shallow embedding of [driver/ixsystems/iscsi.py]

    The driver is a thin layer of control flow around collaborators that
    live outside the file: the backend gateway [self.common], the cinder
    database API, the cinder message API and the pure helpers of
    [ix_utils].  The embedding keeps that shape:

    - Python values that cross the boundary are [pyval]s, dictionaries are
      [gmap string pyval];
    - every call to a collaborator is an operation of a small free monad
      [prog]; a [handler] gives the collaborator's answer (a value or a
      raised exception) and threads the collaborator's own state;
    - [run] executes a program against a handler and records the sequence
      of operations that were really performed;
    - the pure helpers of [ix_utils] are section variables.

    Strings are sequences of code points below 256 (the Latin-1 block of
    Unicode), one [ascii] per code point.  Logging calls have no effect on
    the results and are left out, except where evaluating their argument
    calls a collaborator. *)

From Stdlib Require Import ZArith String Ascii Lia.
From stdpp Require Import base option list gmap strings pretty.

Local Open Scope string_scope.
Local Open Scope Z_scope.

(** ** Python values *)

Inductive pyval : Type :=
| PyNone
| PyBool (b : bool)
| PyInt (z : Z)
| PyStr (s : string).

Inductive exn : Type :=
| FreeNASApiError (msg : string)
| ValueError (msg : string)
| TypeError (msg : string)
| KeyError (key : string)
| IndexError (msg : string)
| OtherError (cls msg : string).

Definition result (A : Type) : Type := exn + A.

Abbreviation dict := (gmap string pyval).

(** [bool(v)] *)
Definition truthy (v : pyval) : bool :=
  match v with
  | PyNone => false
  | PyBool b => b
  | PyInt z => negb (z =? 0)
  | PyStr s => negb (String.eqb s "")
  end.

(** [d.get(k)]: [None] when the key is absent. *)
Definition dict_get (d : dict) (k : string) : pyval :=
  default PyNone (d !! k).

(** [d[k]]: [KeyError] when the key is absent. *)
Definition dict_item (d : dict) (k : string) : result pyval :=
  match d !! k with
  | Some v => inr v
  | None => inl (KeyError k)
  end.

(** [v == s] for a string literal [s]: only a string equals a string. *)
Definition py_eq_str (v : pyval) (s : string) : bool :=
  match v with
  | PyStr t => String.eqb t s
  | _ => false
  end.

(** [str(v)] *)
Definition py_str (v : pyval) : string :=
  match v with
  | PyNone => "None"
  | PyBool true => "True"
  | PyBool false => "False"
  | PyInt z => pretty z
  | PyStr s => s
  end.

(** *** [str.isnumeric] and [int] on Latin-1 strings *)

Definition is_decimal_char (c : ascii) : bool :=
  let n := N_of_ascii c in ((48 <=? n) && (n <=? 57))%N.

(** The code points below 256 with a Unicode numeric value: the ten decimal
    digits, the superscripts U+00B2, U+00B3, U+00B9 and the vulgar
    fractions U+00BC, U+00BD, U+00BE. *)
Definition is_numeric_char (c : ascii) : bool :=
  let n := N_of_ascii c in
  is_decimal_char c
  || (n =? 178)%N || (n =? 179)%N || (n =? 185)%N
  || (n =? 188)%N || (n =? 189)%N || (n =? 190)%N.

Fixpoint all_chars (p : ascii -> bool) (s : string) : bool :=
  match s with
  | EmptyString => true
  | String c r => p c && all_chars p r
  end.

(** [s.isnumeric()]: at least one character, and all of them numeric. *)
Definition isnumeric (s : string) : bool :=
  match s with
  | EmptyString => false
  | _ => all_chars is_numeric_char s
  end.

Definition digit_value (c : ascii) : Z := Z.of_N (N_of_ascii c) - 48.

Fixpoint decimal_acc (acc : Z) (s : string) : Z :=
  match s with
  | EmptyString => acc
  | String c r => decimal_acc (10 * acc + digit_value c) r
  end.

(** [int(s)] for a string [s].  Only the plain form (one or more decimal
    digits) is modelled: the signed, space-padded and underscore forms all
    contain a character that is not numeric, so they never reach [int] in
    this driver, where every call is guarded by [isnumeric].  A numeric
    character that is not a decimal digit is rejected by [int].  The
    interpreter's optional cap on the length of a decimal literal is not
    modelled. *)
Definition int_of_str (s : string) : result Z :=
  match s with
  | EmptyString => inl (ValueError s)
  | _ => if all_chars is_decimal_char s then inr (decimal_acc 0 s)
         else inl (ValueError s)
  end.

(** [int(v)] *)
Definition py_int (v : pyval) : result Z :=
  match v with
  | PyNone => inl (TypeError "int() argument must be a string or a number")
  | PyBool b => inr (if b then 1 else 0)
  | PyInt z => inr z
  | PyStr s => int_of_str s
  end.

(** [s.find(sub)]: the lowest index of [sub] in [s], or -1. *)
Definition str_find (s sub : string) : Z :=
  match String.index 0 sub s with
  | Some i => Z.of_nat i
  | None => -1
  end.

(** ** Regular expressions, as far as [re.match] is used

    [re.match(p, s)] succeeds when some prefix of [s] belongs to the
    language of [p]; the driver only tests the match for truth.  The
    matcher below decides exactly that with Brzozowski derivatives. *)

Inductive regex : Type :=
| RNone
| REps
| RClass (p : ascii -> bool)
| RCat (r1 r2 : regex)
| RAlt (r1 r2 : regex)
| RStar (r : regex).

Definition RPlus (r : regex) : regex := RCat r (RStar r).

Fixpoint RLit (s : string) : regex :=
  match s with
  | EmptyString => REps
  | String c r => RCat (RClass (Ascii.eqb c)) (RLit r)
  end.

Fixpoint nullable (r : regex) : bool :=
  match r with
  | RNone => false
  | REps => true
  | RClass _ => false
  | RCat r1 r2 => nullable r1 && nullable r2
  | RAlt r1 r2 => nullable r1 || nullable r2
  | RStar _ => true
  end.

Fixpoint deriv (c : ascii) (r : regex) : regex :=
  match r with
  | RNone => RNone
  | REps => RNone
  | RClass p => if p c then REps else RNone
  | RCat r1 r2 =>
      if nullable r1
      then RAlt (RCat (deriv c r1) r2) (deriv c r2)
      else RCat (deriv c r1) r2
  | RAlt r1 r2 => RAlt (deriv c r1) (deriv c r2)
  | RStar r1 => RCat (deriv c r1) (RStar r1)
  end.

(** Derivatives are pruned as they are built, so that matching a long
    name stays cheap; pruning keeps the language ([prune_matches]). *)
Definition cat_pruned (p q : regex) : regex :=
  match p, q with
  | RNone, _ => RNone
  | _, RNone => RNone
  | REps, _ => q
  | _, _ => RCat p q
  end.

Definition alt_pruned (p q : regex) : regex :=
  match p, q with
  | RNone, _ => q
  | _, RNone => p
  | _, _ => RAlt p q
  end.

Fixpoint prune (r : regex) : regex :=
  match r with
  | RCat r1 r2 => cat_pruned (prune r1) (prune r2)
  | RAlt r1 r2 => alt_pruned (prune r1) (prune r2)
  | _ => r
  end.

Fixpoint re_match (r : regex) (s : string) : bool :=
  nullable r ||
  match s with
  | EmptyString => false
  | String c rest => re_match (prune (deriv c r)) rest
  end.

(** The language of a regular expression. *)
Inductive matches : regex -> string -> Prop :=
| matches_eps : matches REps ""
| matches_class (p : ascii -> bool) (c : ascii) :
    p c = true -> matches (RClass p) (String c "")
| matches_cat (r1 r2 : regex) (s1 s2 : string) :
    matches r1 s1 -> matches r2 s2 -> matches (RCat r1 r2) (s1 ++ s2)
| matches_alt_l (r1 r2 : regex) (s : string) :
    matches r1 s -> matches (RAlt r1 r2) s
| matches_alt_r (r1 r2 : regex) (s : string) :
    matches r2 s -> matches (RAlt r1 r2) s
| matches_star_nil (r : regex) : matches (RStar r) ""
| matches_star_cons (r : regex) (s1 s2 : string) :
    matches r s1 -> matches (RStar r) s2 -> matches (RStar r) (s1 ++ s2).

Definition in_range (lo hi : ascii) (c : ascii) : bool :=
  ((N_of_ascii lo <=? N_of_ascii c) && (N_of_ascii c <=? N_of_ascii hi))%N.

(** [[a-zA-Z0-9]] *)
Definition class_alnum (c : ascii) : bool :=
  in_range "a" "z" c || in_range "A" "Z" c || in_range "0" "9" c.

(** [[a-z0-9]] *)
Definition class_lower_digit (c : ascii) : bool :=
  in_range "a" "z" c || in_range "0" "9" c.

(** [image-[a-zA-Z0-9]+-[a-z0-9]+-[a-z0-9]+-[a-z0-9]+-[a-z0-9]+] *)
Definition image_cache_pattern : regex :=
  RCat (RLit "image-")
    (RCat (RPlus (RClass class_alnum))
      (RCat (RLit "-") (RCat (RPlus (RClass class_lower_digit))
        (RCat (RLit "-") (RCat (RPlus (RClass class_lower_digit))
          (RCat (RLit "-") (RCat (RPlus (RClass class_lower_digit))
            (RCat (RLit "-") (RPlus (RClass class_lower_digit)))))))))).

(** A run [g] that a repeated class [[...]+] can take: at least one
    character, all of them in the class. *)
Definition char_group (p : ascii -> bool) (g : string) : Prop :=
  g <> "" /\ all_chars p g = true.

(** ** Data exchanged with the collaborators *)

(** The dictionary returned by [ix_utils.generate_freenas_volume_name] and
    [ix_utils.generate_freenas_snapshot_name]; the driver reads the keys
    ['name'], ['target'] and ['iqn']. *)
Record freenas_name : Type := FreenasName {
  fn_name : string;
  fn_target : string;
  fn_iqn : string
}.

(** A cinder volume, with the fields the driver reads.  [display_name]
    may be [None]. *)
Record Volume : Type := {
  vol_id : string;
  vol_name : string;
  vol_size : Z;
  vol_project_id : string;
  vol_display_name : option string
}.

(** A snapshot as the driver receives it: [snapshot['name']] and
    [snapshot['volume_name']]. *)
Record Snapshot : Type := {
  snap_name : string;
  snap_volume_name : string
}.

(** A row of [cinderapi.volume_get_all]: [vol.host] (possibly [None]) and
    [vol.attach_status]. *)
Record volume_row : Type := {
  row_host : option string;
  row_attach_status : string
}.

Inductive Action : Type := ATTACH_VOLUME.
Inductive Detail : Type := ATTACH_ERROR.

(** The arguments of [message_api.create]: the admin context with its
    [project_id] overwritten, then the keyword arguments. *)
Record message : Type := {
  msg_project_id : string;
  msg_action : Action;
  msg_resource_uuid : string;
  msg_exception : exn;
  msg_detail : Detail
}.

(** The options of [self.configuration] that the driver reads.
    [image_volume_cache_enabled] is the truth value of
    [safe_get('image_volume_cache_enabled')]. *)
Record configuration : Type := {
  ixsystems_iqn_prefix : string;
  ixsystems_server_hostname : string;
  ixsystems_server_iscsi_port : Z;
  image_volume_cache_enabled : bool
}.

Record FreeNASISCSIDriver : Type := {
  self_configuration : configuration;
  self_stats : dict
}.

(** The connection descriptor returned by [initialize_connection]. *)
Record properties : Type := {
  target_discovered : bool;
  target_portal : string;
  target_iqn : string;
  volume_id : string
}.

Record connection_info : Type := {
  driver_volume_type : string;
  data : properties
}.

(** ** Calls to the collaborators *)

(** The methods of [self.common] (a [TrueNASCommon]) that the driver calls. *)
Module common.
Inductive op : Type :=
| system_version
| tunable
| create_volume (name : string) (size : Z)
| delete_volume (name : string)
| create_iscsitarget (target name : string)
| delete_iscsitarget (target : string)
| create_export (name : string)
| create_snapshot (snapshot volume : string)
| delete_snapshot (snapshot volume : string)
| create_volume_from_snapshot (name snapshot volume : string)
| promote_volume (name : string)
| is_service_project (project_id : string)
| update_volume_stats
| extend_volume (name : string) (size : Z).
End common.

(** [cinderapi.CONF.list_all_sections()] and
    [cinderapi.volume_get_all(context.get_admin_context())]. *)
Module cinderapi.
Inductive op : Type :=
| list_all_sections
| volume_get_all.
End cinderapi.

(** [api.API().create(ctx, ...)]. *)
Module message_api.
Inductive op : Type :=
| create (m : message).
End message_api.

Inductive op : Type :=
| Common (o : common.op)
| CinderApi (o : cinderapi.op)
| MessageApi (o : message_api.op).

Coercion Common : common.op >-> op.
Coercion CinderApi : cinderapi.op >-> op.
Coercion MessageApi : message_api.op >-> op.

(** What each call returns when it does not raise. *)
Definition resp (o : op) : Type :=
  match o with
  | Common common.system_version => string
  | Common common.tunable => list dict
  | Common (common.create_export _) => string
  | Common (common.is_service_project _) => bool
  | Common common.update_volume_stats => dict
  | Common _ => unit
  | CinderApi cinderapi.list_all_sections => list string
  | CinderApi cinderapi.volume_get_all => list volume_row
  | MessageApi _ => unit
  end.

(** ** Programs *)

Inductive prog (A : Type) : Type :=
| Ret (a : A)
| Raise (e : exn)
| Do (o : op) (k : resp o -> prog A).

Arguments Ret {A} a.
Arguments Raise {A} e.
Arguments Do {A} o k.

Fixpoint prog_bind {A B : Type} (f : A -> prog B) (p : prog A) : prog B :=
  match p with
  | Ret a => f a
  | Raise e => Raise e
  | Do o k => Do o (fun x => prog_bind f (k x))
  end.

#[global] Instance prog_mret : MRet prog := @Ret.
#[global] Instance prog_mbind : MBind prog := @prog_bind.

(** One call, returning its answer. *)
Definition call (o : op) : prog (resp o) := Do o Ret.

(** A pure computation that may raise. *)
Definition lift {A : Type} (r : result A) : prog A :=
  match r with
  | inl e => Raise e
  | inr a => Ret a
  end.

(** A collaborator: for each call and each state of the outside world, the
    answer (an exception or a value) and the next state. *)
Definition handler (W : Type) : Type := forall o : op, W -> result (resp o) * W.

Record outcome (W A : Type) : Type := Outcome {
  trace : list op;
  returned : result A;
  final : W
}.

Arguments Outcome {W A} trace returned final.
Arguments trace {W A} o.
Arguments returned {W A} o.
Arguments final {W A} o.

Definition after {W A : Type} (o : op) (out : outcome W A) : outcome W A :=
  Outcome (o :: trace out) (returned out) (final out).

Fixpoint run {W A : Type} (h : handler W) (p : prog A) (w : W) : outcome W A :=
  match p with
  | Ret a => Outcome [] (inr a) w
  | Raise e => Outcome [] (inl e) w
  | Do o k =>
      match h o w with
      | (inl e, w') => Outcome [o] (inl e) w'
      | (inr x, w') => after o (run h (k x) w')
      end
  end.

(** ** The driver *)

Definition KERN_CAM_CTL_MAX_LUNS : string := "kern.cam.ctl.max_luns".
Definition KERN_CAM_CTL_MAX_PORTS : string := "kern.cam.ctl.max_ports".

(** The condition of one [if] of the loop over the tunables:
    [item.get('enabled') and item.get('var') == var and
     str(item.get('value')).isnumeric()]. *)
Definition tunable_applies (var : string) (item : dict) : bool :=
  truthy (dict_get item "enabled")
  && py_eq_str (dict_get item "var") var
  && isnumeric (py_str (dict_get item "value")).

(** [int(item['value'])] *)
Definition tunable_int (item : dict) : result Z :=
  match dict_item item "value" with
  | inl e => inl e
  | inr v => py_int v
  end.

(** The loop [for item in tunable: ...] of [check_connection], on the
    pair [(max_luns, max_ports)]. *)
Fixpoint tunable_loop (tunable : list dict) (max_luns max_ports : Z)
  : result (Z * Z) :=
  match tunable with
  | [] => inr (max_luns, max_ports)
  | item :: rest =>
      match (if tunable_applies KERN_CAM_CTL_MAX_LUNS item
             then tunable_int item else inr max_luns) with
      | inl e => inl e
      | inr max_luns' =>
          match (if tunable_applies KERN_CAM_CTL_MAX_PORTS item
                 then tunable_int item else inr max_ports) with
          | inl e => inl e
          | inr max_ports' => tunable_loop rest max_luns' max_ports'
          end
      end
  end.

(** [vol.host and vol.host.find("@ixsystems-iscsi#") > 0
     and vol.attach_status == 'attached'] *)
Definition is_attached_truenas_vol (vol : volume_row) : bool :=
  match row_host vol with
  | None => false
  | Some host =>
      negb (String.eqb host "")
      && (0 <? str_find host "@ixsystems-iscsi#")
      && String.eqb (row_attach_status vol) "attached"
  end.

Definition attached_truenas_vol_count (vols : list volume_row) : Z :=
  Z.of_nat (length (filter (fun vol => is_attached_truenas_vol vol = true) vols)).

(** [t[i]] on a tuple. *)
Definition tuple_item (t : list pyval) (i : nat) : result pyval :=
  match t !! i with
  | Some v => inr v
  | None => inl (IndexError "tuple index out of range")
  end.

(** The message of the exception raised on a denied attachment; the line
    continuations of the source literal keep the indentation of the
    continued lines. *)
Definition limit_reached_message : string :=
  "Maximum lun/port limitation reached. " ++
  "            Change kern.cam.ctl.max_luns and kern.cam.ctl.max_ports in " ++
  "            tunable settings to allow more lun attachments.".

(** [__init__]: the separator is appended to the IQN prefix once, and the
    cached stats start empty. *)
Definition __init__ (conf : configuration) : FreeNASISCSIDriver :=
  {| self_configuration :=
       {| ixsystems_iqn_prefix := ixsystems_iqn_prefix conf ++ ":";
          ixsystems_server_hostname := ixsystems_server_hostname conf;
          ixsystems_server_iscsi_port := ixsystems_server_iscsi_port conf;
          image_volume_cache_enabled := image_volume_cache_enabled conf |};
     self_stats := ∅ |}.

(** ** Concrete collaborators, for running the driver on examples *)

Module Sample.

(** Modelled from the spec: [ix_utils.generate_freenas_volume_name] is not
    part of the driver file; the spec only asks for a pure, deterministic
    mapping from the logical name and the IQN prefix to a backend name, a
    target name and an IQN.  This is one such mapping. *)
Definition generate_freenas_volume_name (name iqn_prefix : string)
  : result freenas_name :=
  inr {| fn_name := "volume-" ++ name;
         fn_target := "target-" ++ name;
         fn_iqn := iqn_prefix ++ "target-" ++ name |}.

(** Modelled from the spec: [ix_utils.generate_freenas_snapshot_name], under
    the same discipline as the volume names. *)
Definition generate_freenas_snapshot_name (name iqn_prefix : string)
  : result freenas_name :=
  inr {| fn_name := "snap-" ++ name;
         fn_target := "target-" ++ name;
         fn_iqn := iqn_prefix ++ "target-" ++ name |}.

(** A resolver that resolves nothing: every backend name is empty. *)
Definition unresolved_name (name iqn_prefix : string) : result freenas_name :=
  inr {| fn_name := ""; fn_target := ""; fn_iqn := iqn_prefix |}.

(** Modelled from the spec: [ix_utils.get_iscsi_portal] is not part of the
    driver file; the spec gives the portal as [host:port]. *)
Definition get_iscsi_portal (hostname : string) (port : Z) : result string :=
  inr (hostname ++ ":" ++ pretty port).

Fixpoint split_dash (cur : string) (s : string) : list string :=
  match s with
  | EmptyString => [cur]
  | String c r =>
      if Ascii.eqb c "-" then cur :: split_dash "" r
      else split_dash (cur ++ String c EmptyString) r
  end.

(** Modelled from the spec: [ix_utils.parse_truenas_version] is not part of
    the driver file; the spec only says that the version is parsed from
    the string the backend reports.  Here the string is cut at its
    dashes, so that ["TrueNAS-12.0-U8.1"] has ["12.0"] at index 1. *)
Definition parse_truenas_version (version : string) : result (list pyval) :=
  inr (PyStr <$> split_dash "" version).

(** A scripted outside world: fixed answers, an optional failure per
    call, and the log of the calls received as its state. *)
Record script : Type := {
  sc_version : string;
  sc_tunable : list dict;
  sc_sections : list string;
  sc_vols : list volume_row;
  sc_service_project : string;
  sc_stats : dict;
  sc_fail : op -> option exn
}.

Definition answer (s : script) (o : op) : resp o :=
  match o return resp o with
  | Common c =>
      match c return resp (Common c) with
      | common.system_version => sc_version s
      | common.tunable => sc_tunable s
      | common.create_export name => "/locator/" ++ name
      | common.is_service_project p => String.eqb p (sc_service_project s)
      | common.update_volume_stats => sc_stats s
      | common.create_volume _ _ => tt
      | common.delete_volume _ => tt
      | common.create_iscsitarget _ _ => tt
      | common.delete_iscsitarget _ => tt
      | common.create_snapshot _ _ => tt
      | common.delete_snapshot _ _ => tt
      | common.create_volume_from_snapshot _ _ _ => tt
      | common.promote_volume _ => tt
      | common.extend_volume _ _ => tt
      end
  | CinderApi c =>
      match c return resp (CinderApi c) with
      | cinderapi.list_all_sections => sc_sections s
      | cinderapi.volume_get_all => sc_vols s
      end
  | MessageApi c => tt
  end.

Definition scripted (s : script) : handler (list op) :=
  fun o w =>
    (match sc_fail s o with
     | Some e => inl e
     | None => inr (answer s o)
     end, (w ++ [o])%list).

Definition never_fails (o : op) : option exn := None.

Definition tunable_item (var : string) (enabled : bool) (value : string) : dict :=
  {[ "var" := PyStr var; "enabled" := PyBool enabled; "value" := PyStr value ]}.

Definition attached_row : volume_row :=
  {| row_host := Some "cinder@ixsystems-iscsi#ixsystems-iscsi";
     row_attach_status := "attached" |}.

Definition detached_row : volume_row :=
  {| row_host := Some "cinder@ixsystems-iscsi#ixsystems-iscsi";
     row_attach_status := "detached" |}.

Definition conf : configuration :=
  {| ixsystems_iqn_prefix := "iqn.2005-10.org.freenas.ctl";
     ixsystems_server_hostname := "nas.example.org";
     ixsystems_server_iscsi_port := 3260;
     image_volume_cache_enabled := true |}.

Definition conf_no_cache : configuration :=
  {| ixsystems_iqn_prefix := "iqn.2005-10.org.freenas.ctl";
     ixsystems_server_hostname := "nas.example.org";
     ixsystems_server_iscsi_port := 3260;
     image_volume_cache_enabled := false |}.

Definition volume : Volume :=
  {| vol_id := "7d1c";
     vol_name := "volume-7d1c";
     vol_size := 10;
     vol_project_id := "service";
     vol_display_name := Some "image-0f2e1d3c-4b5a-6978-8a9b-0c1d2e3f4a5b" |}.

Definition source_volume : Volume :=
  {| vol_id := "a001";
     vol_name := "volume-a001";
     vol_size := 10;
     vol_project_id := "tenant";
     vol_display_name := Some "data" |}.

Definition snapshot : Snapshot :=
  {| snap_name := "snapshot-55aa"; snap_volume_name := "volume-a001" |}.

(** A TrueNAS 12.0 backend with [max_luns = 10], [max_ports = 5] and [n]
    attached volumes. *)
Definition truenas (version : string) (n : nat) : script :=
  {| sc_version := version;
     sc_tunable := [tunable_item "kern.cam.ctl.max_luns" true "10";
                    tunable_item "kern.cam.ctl.max_ports" true "5"];
     sc_sections := ["DEFAULT"; "ixsystems-iscsi"];
     sc_vols := detached_row :: replicate n attached_row;
     sc_service_project := "service";
     sc_stats := {[ "total_capacity_gb" := PyInt 100;
                    "free_capacity_gb" := PyInt 40 ]};
     sc_fail := never_fails |}.

Definition driver : FreeNASISCSIDriver := __init__ conf.

Definition driver_no_cache : FreeNASISCSIDriver := __init__ conf_no_cache.

Definition connector : dict :=
  {[ "initiator" := PyStr "iqn.1993-08.org.debian:01:5d2b" ]}.

(** A backend that accepts the storage object and refuses the target. *)
Definition target_fails : script :=
  {| sc_version := "TrueNAS-12.0-U8.1";
     sc_tunable := [];
     sc_sections := ["DEFAULT"];
     sc_vols := [];
     sc_service_project := "service";
     sc_stats := ∅;
     sc_fail := fun o =>
       match o with
       | Common (common.create_iscsitarget _ _) =>
           Some (FreeNASApiError "target already exists")
       | _ => None
       end |}.

(** A backend whose stats query fails. *)
Definition stats_fail : script :=
  {| sc_version := "TrueNAS-12.0-U8.1";
     sc_tunable := [];
     sc_sections := ["DEFAULT"];
     sc_vols := [];
     sc_service_project := "service";
     sc_stats := ∅;
     sc_fail := fun o =>
       match o with
       | Common common.update_volume_stats =>
           Some (FreeNASApiError "connection refused")
       | _ => None
       end |}.

(** A TrueNAS 12.0 backend whose [kern.cam.ctl.max_luns] tunable is
    enabled and holds the single character U+00B2 (superscript two). *)
Definition superscript_tunable : script :=
  {| sc_version := "TrueNAS-12.0-U8.1";
     sc_tunable := [tunable_item "kern.cam.ctl.max_luns" true
                      (String (ascii_of_N 178) EmptyString)];
     sc_sections := ["DEFAULT"];
     sc_vols := [];
     sc_service_project := "service";
     sc_stats := ∅;
     sc_fail := never_fails |}.

(** A TrueNAS 12.0 backend that refuses the calls selected by [fails]. *)
Definition failing (fails : op -> bool) : script :=
  {| sc_version := "TrueNAS-12.0-U8.1";
     sc_tunable := [];
     sc_sections := ["DEFAULT"];
     sc_vols := [];
     sc_service_project := "service";
     sc_stats := ∅;
     sc_fail := fun o =>
       if fails o then Some (FreeNASApiError "backend error") else None |}.

(** A TrueNAS 12.0 backend seen before any configuration section is
    loaded, with [max_luns = 10], [max_ports = 5] and [n] attached
    volumes. *)
Definition no_sections (n : nat) : script :=
  {| sc_version := "TrueNAS-12.0-U8.1";
     sc_tunable := [tunable_item "kern.cam.ctl.max_luns" true "10";
                    tunable_item "kern.cam.ctl.max_ports" true "5"];
     sc_sections := [];
     sc_vols := replicate n attached_row;
     sc_service_project := "service";
     sc_stats := ∅;
     sc_fail := never_fails |}.

(** A TrueNAS 13.0 backend whose tunables are all passed over: one is
    disabled, one has another name, one has a value that is not numeric. *)
Definition defaults_only (n : nat) : script :=
  {| sc_version := "TrueNAS-13.0-U6";
     sc_tunable := [tunable_item "kern.cam.ctl.max_luns" false "10";
                    tunable_item "kern.ipc.maxsockbuf" true "3";
                    tunable_item "kern.cam.ctl.max_ports" true "many"];
     sc_sections := ["DEFAULT"];
     sc_vols := replicate n attached_row;
     sc_service_project := "service";
     sc_stats := ∅;
     sc_fail := never_fails |}.

(** A service-project volume without a display name. *)
Definition unnamed_volume : Volume :=
  {| vol_id := "9e0f";
     vol_name := "volume-9e0f";
     vol_size := 1;
     vol_project_id := "service";
     vol_display_name := None |}.

(** A resolver that raises on every name. *)
Definition invalid_name (name iqn_prefix : string) : result freenas_name :=
  inl (OtherError "InvalidNameError" name).

End Sample.

(** Membership of a call in an explicit trace. *)
Ltac trace_mem H :=
  cbn in H;
  repeat (apply elem_of_cons in H as [H | H]; [try discriminate |]);
  try (by apply elem_of_nil in H).

Section Driver.

(** The pure helpers of [ix_utils]; each may raise. *)
Variable generate_freenas_volume_name : string -> string -> result freenas_name.
Variable generate_freenas_snapshot_name : string -> string -> result freenas_name.
Variable get_iscsi_portal : string -> Z -> result string.
Variable parse_truenas_version : string -> result (list pyval).

Definition iqn_prefix (self : FreeNASISCSIDriver) : string :=
  ixsystems_iqn_prefix (self_configuration self).

Definition create_volume (self : FreeNASISCSIDriver) (volume : Volume)
  : prog unit :=
  freenas_volume ← lift (generate_freenas_volume_name
                           (vol_name volume) (iqn_prefix self));
  let size := vol_size volume in
  call (common.create_volume (fn_name freenas_volume) size);;
  call (common.create_iscsitarget (fn_target freenas_volume)
                                  (fn_name freenas_volume)).

Definition delete_volume (self : FreeNASISCSIDriver) (volume : Volume)
  : prog unit :=
  freenas_volume ← lift (generate_freenas_volume_name
                           (vol_name volume) (iqn_prefix self));
  (if String.eqb (fn_target freenas_volume) "" then Ret tt
   else call (common.delete_iscsitarget (fn_target freenas_volume)));;
  (if String.eqb (fn_name freenas_volume) "" then Ret tt
   else call (common.delete_volume (fn_name freenas_volume))).

Definition create_export (self : FreeNASISCSIDriver) (volume : Volume)
  : prog dict :=
  handle ← call (common.create_export (vol_name volume));
  Ret ({[ "provider_location" := PyStr handle ]} : dict).

Definition ensure_export (self : FreeNASISCSIDriver) (volume : Volume)
  : prog dict :=
  handle ← call (common.create_export (vol_name volume));
  Ret ({[ "provider_location" := PyStr handle ]} : dict).

Definition remove_export (self : FreeNASISCSIDriver) (volume : Volume)
  : prog unit := Ret tt.

Definition check_connection (self : FreeNASISCSIDriver) : prog bool :=
  version ← call common.system_version;
  parsed ← lift (parse_truenas_version version);
  major ← lift (tuple_item parsed 1);
  if py_eq_str major "12.0" || py_eq_str major "13.0" then
    (* the argument of LOG.debug queries the tunables once more *)
    call common.tunable;;
    tunable ← call common.tunable;
    limits ← lift (tunable_loop tunable 1024 256);
    let attach_max_allow := Z.min (fst limits) (snd limits) in
    sections ← call cinderapi.list_all_sections;
    if 0 <? Z.of_nat (length sections) then
      vols ← call cinderapi.volume_get_all;
      if attach_max_allow <=? attached_truenas_vol_count vols
      then Ret false
      else Ret true
    else Ret true
  else Ret true.

Definition initialize_connection (self : FreeNASISCSIDriver)
    (volume : Volume) (connector : dict) : prog connection_info :=
  allowed ← check_connection self;
  if negb allowed then
    let exception := FreeNASApiError limit_reached_message in
    call (message_api.create
            {| msg_project_id := vol_project_id volume;
               msg_action := ATTACH_VOLUME;
               msg_resource_uuid := vol_id volume;
               msg_exception := exception;
               msg_detail := ATTACH_ERROR |});;
    Raise exception
  else
    freenas_volume ← lift (generate_freenas_volume_name
                             (vol_name volume) (iqn_prefix self));
    freenas_volume ←
      (if String.eqb (fn_name freenas_volume) ""
       then lift (generate_freenas_snapshot_name
                    (vol_name volume) (iqn_prefix self))
       else Ret freenas_volume);
    portal ← lift (get_iscsi_portal
                     (ixsystems_server_hostname (self_configuration self))
                     (ixsystems_server_iscsi_port (self_configuration self)));
    Ret {| driver_volume_type := "iscsi";
           data := {| target_discovered := false;
                      target_portal := portal;
                      target_iqn := fn_iqn freenas_volume;
                      volume_id := vol_id volume |} |}.

Definition terminate_connection (self : FreeNASISCSIDriver)
    (volume : Volume) (connector : dict) : prog unit := Ret tt.

Definition create_snapshot (self : FreeNASISCSIDriver) (snapshot : Snapshot)
  : prog unit :=
  freenas_snapshot ← lift (generate_freenas_snapshot_name
                             (snap_name snapshot) (iqn_prefix self));
  freenas_volume ← lift (generate_freenas_volume_name
                           (snap_volume_name snapshot) (iqn_prefix self));
  call (common.create_snapshot (fn_name freenas_snapshot)
                               (fn_name freenas_volume)).

Definition delete_snapshot (self : FreeNASISCSIDriver) (snapshot : Snapshot)
  : prog unit :=
  freenas_snapshot ← lift (generate_freenas_snapshot_name
                             (snap_name snapshot) (iqn_prefix self));
  freenas_volume ← lift (generate_freenas_volume_name
                           (snap_volume_name snapshot) (iqn_prefix self));
  call (common.delete_snapshot (fn_name freenas_snapshot)
                               (fn_name freenas_volume)).

(** [re.match(pattern, volume['display_name'])], tested for truth;
    [re.match] raises [TypeError] on [None]. *)
Definition match_display_name (volume : Volume) : result bool :=
  match vol_display_name volume with
  | None => inl (TypeError "expected string or bytes-like object")
  | Some display_name => inr (re_match image_cache_pattern display_name)
  end.

Definition create_volume_from_snapshot (self : FreeNASISCSIDriver)
    (volume : Volume) (snapshot : Snapshot) : prog unit :=
  existing_vol ← lift (generate_freenas_volume_name
                         (snap_volume_name snapshot) (iqn_prefix self));
  freenas_snapshot ← lift (generate_freenas_snapshot_name
                             (snap_name snapshot) (iqn_prefix self));
  freenas_volume ← lift (generate_freenas_volume_name
                           (vol_name volume) (iqn_prefix self));
  call (common.create_volume_from_snapshot (fn_name freenas_volume)
                                           (fn_name freenas_snapshot)
                                           (fn_name existing_vol));;
  call (common.create_iscsitarget (fn_target freenas_volume)
                                  (fn_name freenas_volume));;
  if image_volume_cache_enabled (self_configuration self) then
    service ← call (common.is_service_project (vol_project_id volume));
    if (service : bool) then
      matched ← lift (match_display_name volume);
      if (matched : bool)
      then call (common.promote_volume (fn_name freenas_volume))
      else Ret tt
    else Ret tt
  else Ret tt.

(** [self.stats] is the only field a method assigns, so the method
    returns the driver along with its result; when the backend raises,
    the assignment is not reached and the caller's driver is unchanged. *)
Definition get_volume_stats (self : FreeNASISCSIDriver) (refresh : bool)
  : prog (dict * FreeNASISCSIDriver) :=
  self ← (if refresh then
            stats ← call common.update_volume_stats;
            Ret {| self_configuration := self_configuration self;
                   self_stats := stats |}
          else Ret self);
  Ret (self_stats self, self).

(** The transient snapshot [{'volume_name': src_vref['name'],
    'name': f'name-{volume["id"]}'}]. *)
Definition temp_snapshot (volume src_vref : Volume) : Snapshot :=
  {| snap_name := "name-" ++ vol_id volume;
     snap_volume_name := vol_name src_vref |}.

Definition create_cloned_volume (self : FreeNASISCSIDriver)
    (volume src_vref : Volume) : prog unit :=
  create_snapshot self (temp_snapshot volume src_vref);;
  create_volume_from_snapshot self volume (temp_snapshot volume src_vref).

Definition extend_volume (self : FreeNASISCSIDriver) (volume : Volume)
    (new_size : Z) : prog unit :=
  freenas_volume ← lift (generate_freenas_volume_name
                           (vol_name volume) (iqn_prefix self));
  let freenas_new_size := new_size in
  if negb (vol_size volume =? freenas_new_size)
  then call (common.extend_volume (fn_name freenas_volume) freenas_new_size)
  else Ret tt.

(** ** Vocabulary for traces *)

Definition is_create_snapshot (o : op) : bool :=
  match o with
  | Common (common.create_snapshot _ _) => true
  | _ => false
  end.

Definition is_delete_snapshot (o : op) : bool :=
  match o with
  | Common (common.delete_snapshot _ _) => true
  | _ => false
  end.

Definition is_clone_from_snapshot (o : op) : bool :=
  match o with
  | Common (common.create_volume_from_snapshot _ _ _) => true
  | _ => false
  end.

Fixpoint count_ops (p : op -> bool) (t : list op) : nat :=
  match t with
  | [] => 0%nat
  | o :: rest => ((if p o then 1 else 0) + count_ops p rest)%nat
  end.

(** ** The admission limits, as the specification words them *)

(** The integer value of a tunable, when [int] accepts it. *)
Definition tunable_value (item : dict) : option Z :=
  match tunable_int item with
  | inr z => Some z
  | inl _ => None
  end.

(** A tunable is convertible when [int] accepts its value whenever the
    driver would honour it under one of the two names. *)
Definition convertible (item : dict) : Prop :=
  tunable_applies KERN_CAM_CTL_MAX_LUNS item
  || tunable_applies KERN_CAM_CTL_MAX_PORTS item = true ->
  is_Some (tunable_value item).

(** The setting named [var]: the integer value of the tunable of that name
    whose enabled flag is set and whose value is numeric (the last one,
    should several qualify), otherwise the default. *)
Definition setting (var : string) (default_value : Z) (tunable : list dict) : Z :=
  match last (filter (fun item => tunable_applies var item = true) tunable) with
  | Some item => default default_value (tunable_value item)
  | None => default_value
  end.

Definition effective_limit (tunable : list dict) : Z :=
  Z.min (setting KERN_CAM_CTL_MAX_LUNS 1024 tunable)
        (setting KERN_CAM_CTL_MAX_PORTS 256 tunable).

(** ** Vocabulary for connections *)

(** The notification sent when the admission check denies the attachment. *)
Definition denial_message (volume : Volume) : message :=
  {| msg_project_id := vol_project_id volume;
     msg_action := ATTACH_VOLUME;
     msg_resource_uuid := vol_id volume;
     msg_exception := FreeNASApiError limit_reached_message;
     msg_detail := ATTACH_ERROR |}.

(** The descriptor built from a resolved name and a portal. *)
Definition connection_properties (volume : Volume) (portal : string)
    (resolved : freenas_name) : connection_info :=
  {| driver_volume_type := "iscsi";
     data := {| target_discovered := false;
                target_portal := portal;
                target_iqn := fn_iqn resolved;
                volume_id := vol_id volume |} |}.

(** ** Kinds of calls *)

(** The calls that only read: the backend version, the tunables, the
    configuration sections and the volume table. *)
Definition is_read_call (o : op) : bool :=
  match o with
  | Common common.system_version => true
  | Common common.tunable => true
  | CinderApi _ => true
  | _ => false
  end.

Definition is_notification (o : op) : bool :=
  match o with
  | MessageApi _ => true
  | _ => false
  end.

(** The calls that remove something from the backend. *)
Definition is_delete_call (o : op) : bool :=
  match o with
  | Common (common.delete_volume _) => true
  | Common (common.delete_iscsitarget _) => true
  | Common (common.delete_snapshot _ _) => true
  | _ => false
  end.

Definition is_storage_creation (o : op) : bool :=
  match o with
  | Common (common.create_volume _ _) => true
  | _ => false
  end.

Definition is_promotion (o : op) : bool :=
  match o with
  | Common (common.promote_volume _) => true
  | _ => false
  end.

Definition is_target_deletion (o : op) : bool :=
  match o with
  | Common (common.delete_iscsitarget _) => true
  | _ => false
  end.

Definition is_service_project_query (o : op) : bool :=
  match o with
  | Common (common.is_service_project _) => true
  | _ => false
  end.

(** A tunable the loop of [check_connection] passes over, for the reason
    the source tests: not enabled, not named like one of the two settings,
    or a value that is not numeric. *)
Definition ignored_tunable (item : dict) : Prop :=
  truthy (dict_get item "enabled") = false
  \/ (py_eq_str (dict_get item "var") KERN_CAM_CTL_MAX_LUNS = false
      /\ py_eq_str (dict_get item "var") KERN_CAM_CTL_MAX_PORTS = false)
  \/ isnumeric (py_str (dict_get item "value")) = false.

(** ** Running programs *)

Context {W : Type} (h : handler W).

Lemma run_bind {A B : Type} (p : prog A) (f : A -> prog B) (w : W) :
  run h (p ≫= f) w =
  match returned (run h p w) with
  | inl e => Outcome (trace (run h p w)) (inl e) (final (run h p w))
  | inr a =>
      let out := run h (f a) (final (run h p w)) in
      Outcome (trace (run h p w) ++ trace out)%list (returned out) (final out)
  end.
Proof.
  revert w. induction p as [a | e | o k IH]; intros w; cbn.
  - destruct (run h (f a) w); reflexivity.
  - reflexivity.
  - destruct (h o w) as [[e | x] w']; cbn; [reflexivity |].
    unfold mbind, prog_mbind in IH. rewrite IH.
    destruct (returned (run h (k x) w')); reflexivity.
Qed.

Lemma run_call (o : op) (w : W) :
  run h (call o) w = Outcome [o] (fst (h o w)) (snd (h o w)).
Proof.
  unfold call. cbn. destruct (h o w) as [[e | x] w']; reflexivity.
Qed.

Lemma run_lift {A : Type} (r : result A) (w : W) :
  run h (lift r) w = Outcome [] r w.
Proof. destruct r; reflexivity. Qed.

(** ** Properties of the lifecycle operations *)

(** C4. [create_volume] first provisions the backend storage object of the
    requested size and then creates the export target bound to it.  When
    the target creation then raises, that exception is what the caller
    gets, the outside world is left as the two calls made it, and no
    deletion of the storage object is attempted: the trace consists of the
    two calls and nothing else. *)
Theorem create_volume_no_rollback
    (self : FreeNASISCSIDriver) (volume : Volume) (freenas_volume : freenas_name)
    (w w1 w2 : W) (r : result unit) :
  generate_freenas_volume_name (vol_name volume) (iqn_prefix self)
    = inr freenas_volume ->
  h (common.create_volume (fn_name freenas_volume) (vol_size volume)) w
    = (inr tt, w1) ->
  h (common.create_iscsitarget (fn_target freenas_volume)
                               (fn_name freenas_volume)) w1 = (r, w2) ->
  let out := run h (create_volume self volume) w in
  trace out =
    [Common (common.create_volume (fn_name freenas_volume) (vol_size volume));
     Common (common.create_iscsitarget (fn_target freenas_volume)
                                       (fn_name freenas_volume))]
  /\ returned out = r
  /\ final out = w2
  /\ (forall name, Common (common.delete_volume name) ∉ trace out).
Proof.
  intros Hname Hcreate Htarget out. subst out.
  unfold create_volume. rewrite Hname. cbn.
  rewrite Hcreate. cbn. rewrite Htarget.
  destruct r as [e | []]; cbn; repeat split; intros name Hin;
    repeat (apply elem_of_cons in Hin as [Hin | Hin]; [discriminate |]);
    by apply elem_of_nil in Hin.
Qed.

(** C8. [extend_volume] calls the backend's grow operation exactly when the
    new size differs from the volume's size: with equal sizes no call is
    made and the outside world is untouched; with different sizes (and a
    name that resolves) the one call made is the grow of the resolved
    backend volume to the new size; and whenever a grow call appears in
    the trace the sizes differ. *)
Theorem extend_volume_calls_backend_iff_size_differs
    (self : FreeNASISCSIDriver) (volume : Volume) (new_size : Z) (w : W) :
  let out := run h (extend_volume self volume new_size) w in
  (vol_size volume = new_size -> trace out = [] /\ final out = w)
  /\ (forall freenas_volume,
        vol_size volume <> new_size ->
        generate_freenas_volume_name (vol_name volume) (iqn_prefix self)
          = inr freenas_volume ->
        let grow := common.extend_volume (fn_name freenas_volume) new_size in
        out = Outcome [Common grow] (fst (h grow w)) (snd (h grow w)))
  /\ (forall name size,
        Common (common.extend_volume name size) ∈ trace out ->
        vol_size volume <> new_size /\ size = new_size).
Proof.
  intros out. subst out. unfold extend_volume.
  destruct (generate_freenas_volume_name _ _) as [e | fv]; cbn.
  - split; [done |]. split.
    + intros fv _ [=].
    + by intros name size Hin%elem_of_nil.
  - destruct (Z.eqb_spec (vol_size volume) new_size) as [Heq | Hne]; cbn [negb].
    + split; [done |]. split; [done |].
      by intros name size Hin%elem_of_nil.
    + split; [done |]. split.
      * intros fv' _ [= <-].
        apply (run_call (common.extend_volume (fn_name fv) new_size)).
      * intros name size Hin.
        rewrite (run_call (common.extend_volume (fn_name fv) new_size)) in Hin.
        cbn in Hin.
        apply list_elem_of_singleton in Hin. by injection Hin as _ ->.
Qed.

(** C9. [get_volume_stats(refresh=False)] returns the cached snapshot, makes
    no call and leaves the driver as it was; on a freshly initialised
    driver that snapshot is the empty one.  [get_volume_stats(refresh=True)]
    makes one call to the backend and, when the backend reports a snapshot,
    returns exactly that snapshot and stores exactly that snapshot,
    whatever the cache held before; when the backend raises, the exception
    is passed on and nothing is stored. *)
Theorem get_volume_stats_cache
    (self : FreeNASISCSIDriver) (conf : configuration) (w : W) :
  run h (get_volume_stats self false) w
    = Outcome [] (inr (self_stats self, self)) w
  /\ returned (run h (get_volume_stats (__init__ conf) false) w)
    = inr (∅, __init__ conf)
  /\ (forall stats w1,
        h common.update_volume_stats w = (inr stats, w1) ->
        run h (get_volume_stats self true) w
          = Outcome [Common common.update_volume_stats]
              (inr (stats, {| self_configuration := self_configuration self;
                              self_stats := stats |})) w1)
  /\ (forall e w1,
        h common.update_volume_stats w = (inl e, w1) ->
        run h (get_volume_stats self true) w
          = Outcome [Common common.update_volume_stats] (inl e) w1).
Proof.
  repeat split.
  - intros stats w1 Hcall. unfold get_volume_stats. cbn. by rewrite Hcall.
  - intros e w1 Hcall. unfold get_volume_stats. cbn. by rewrite Hcall.
Qed.

(** C7. When the second component of the parsed backend version is neither
    ['12.0'] nor ['13.0'], [check_connection] returns [True] after the
    single call that reads the version: the tunables are not read, the
    configuration sections are not listed and the volumes are not
    counted. *)
Theorem check_connection_other_versions
    (self : FreeNASISCSIDriver) (version : string) (parsed : list pyval)
    (major : pyval) (w w1 : W) :
  h common.system_version w = (inr version, w1) ->
  parse_truenas_version version = inr parsed ->
  parsed !! 1%nat = Some major ->
  major <> PyStr "12.0" ->
  major <> PyStr "13.0" ->
  run h (check_connection self) w
    = Outcome [Common common.system_version] (inr true) w1.
Proof.
  intros Hver Hparse Hidx H12 H13.
  unfold check_connection. cbn. rewrite Hver. cbn.
  rewrite Hparse. cbn. unfold tuple_item. rewrite Hidx. cbn.
  assert (py_eq_str major "12.0" = false) as ->.
  { destruct major as [| | |s]; try reflexivity. cbn.
    apply String.eqb_neq. congruence. }
  assert (py_eq_str major "13.0" = false) as ->.
  { destruct major as [| | |s]; try reflexivity. cbn.
    apply String.eqb_neq. congruence. }
  reflexivity.
Qed.

(** ** Properties of [initialize_connection] *)

(** C6. When the admission check denies, [initialize_connection] makes one
    more call, the creation of a message through the message API, whose
    context carries the volume's project id, whose resource is the
    volume's id and whose exception text names both tunables; it then
    raises that exception.  No connection properties are returned: the
    call ends in an exception, which is the admission failure whenever the
    message API itself did not raise. *)
Theorem initialize_connection_denied
    (self : FreeNASISCSIDriver) (volume : Volume) (connector : dict)
    (w w1 : W) (t : list op) :
  run h (check_connection self) w = Outcome t (inr false) w1 ->
  let notify := message_api.create (denial_message volume) in
  let out := run h (initialize_connection self volume connector) w in
  trace out = (t ++ [MessageApi notify])%list
  /\ final out = snd (h notify w1)
  /\ (exists e, returned out = inl e)
  /\ (fst (h notify w1) = inr tt ->
      returned out = inl (FreeNASApiError limit_reached_message))
  /\ msg_project_id (denial_message volume) = vol_project_id volume
  /\ msg_resource_uuid (denial_message volume) = vol_id volume
  /\ msg_exception (denial_message volume) = FreeNASApiError limit_reached_message
  /\ 0 <= str_find limit_reached_message KERN_CAM_CTL_MAX_LUNS
  /\ 0 <= str_find limit_reached_message KERN_CAM_CTL_MAX_PORTS.
Proof.
  intros Hcheck notify out. subst out notify.
  unfold initialize_connection. rewrite run_bind, Hcheck. cbn.
  fold (denial_message volume).
  destruct (h (message_api.create (denial_message volume)) w1) as [[e | []] w2];
    cbn; repeat split; eauto; try discriminate; vm_compute; discriminate.
Qed.

(** C10. Whenever [initialize_connection] returns, the value returned is
    [{'driver_volume_type': 'iscsi', 'data': properties}] where
    [target_discovered] is [False], [volume_id] is the volume's id,
    [target_portal] is what [get_iscsi_portal] gives for the configured
    host name and iSCSI port, and [target_iqn] is the IQN of the resolved
    volume name, or of the resolved snapshot name when the volume name
    resolved to an empty backend name. *)
Theorem initialize_connection_properties
    (self : FreeNASISCSIDriver) (volume : Volume) (connector : dict)
    (w : W) (info : connection_info) :
  returned (run h (initialize_connection self volume connector) w) = inr info ->
  driver_volume_type info = "iscsi"
  /\ target_discovered (data info) = false
  /\ volume_id (data info) = vol_id volume
  /\ get_iscsi_portal (ixsystems_server_hostname (self_configuration self))
                      (ixsystems_server_iscsi_port (self_configuration self))
     = inr (target_portal (data info))
  /\ exists freenas_volume,
       generate_freenas_volume_name (vol_name volume) (iqn_prefix self)
         = inr freenas_volume
       /\ if String.eqb (fn_name freenas_volume) ""
          then exists freenas_snapshot,
                 generate_freenas_snapshot_name (vol_name volume) (iqn_prefix self)
                   = inr freenas_snapshot
                 /\ target_iqn (data info) = fn_iqn freenas_snapshot
          else target_iqn (data info) = fn_iqn freenas_volume.
Proof.
  unfold initialize_connection. rewrite run_bind.
  destruct (returned (run h (check_connection self) w)) as [e | [|]];
    cbn; [discriminate | | ].
  - destruct (generate_freenas_volume_name _ _) as [e | fv]; cbn;
      [discriminate |].
    destruct (String.eqb (fn_name fv) "") eqn:Hempty; cbn.
    + destruct (generate_freenas_snapshot_name _ _) as [e | fs]; cbn;
        [discriminate |].
      destruct (get_iscsi_portal _ _) as [e | portal]; cbn; [discriminate |].
      intros [= <-]. cbn. repeat split. exists fv. split; [done |].
      rewrite Hempty. by exists fs.
    + destruct (get_iscsi_portal _ _) as [e | portal]; cbn; [discriminate |].
      intros [= <-]. cbn. repeat split. exists fv. split; [done |].
      by rewrite Hempty.
  - destruct (h _ _) as [[e | []] w2]; cbn; discriminate.
Qed.

(** C3, as the code has it.  After a passing admission check
    [initialize_connection] calls no collaborator.  It resolves the volume
    name first; a non-empty backend name is used as it is and the snapshot
    resolver is not consulted (it may even raise for that name); an empty
    backend name makes it take the snapshot resolver's result instead, and
    the properties are built from that result whatever its backend name
    is, the empty one included.  The call fails only with an exception
    raised by one of the helpers. *)
Theorem initialize_connection_resolution
    (self : FreeNASISCSIDriver) (volume : Volume) (connector : dict)
    (w w1 : W) (t : list op) :
  run h (check_connection self) w = Outcome t (inr true) w1 ->
  let out := run h (initialize_connection self volume connector) w in
  let volume_result :=
    generate_freenas_volume_name (vol_name volume) (iqn_prefix self) in
  let snapshot_result :=
    generate_freenas_snapshot_name (vol_name volume) (iqn_prefix self) in
  let portal_result :=
    get_iscsi_portal (ixsystems_server_hostname (self_configuration self))
                     (ixsystems_server_iscsi_port (self_configuration self)) in
  trace out = t /\ final out = w1
  /\ (forall e, volume_result = inl e -> returned out = inl e)
  /\ (forall fv portal,
        volume_result = inr fv -> fn_name fv <> "" ->
        portal_result = inr portal ->
        returned out = inr (connection_properties volume portal fv))
  /\ (forall fv fs portal,
        volume_result = inr fv -> fn_name fv = "" ->
        snapshot_result = inr fs ->
        portal_result = inr portal ->
        returned out = inr (connection_properties volume portal fs))
  /\ (forall fv e,
        volume_result = inr fv -> fn_name fv = "" ->
        snapshot_result = inl e -> returned out = inl e)
  /\ (forall e,
        returned out = inl e ->
        volume_result = inl e \/ snapshot_result = inl e \/ portal_result = inl e).
Proof.
  intros Hcheck out vr sr pr. subst out vr sr pr.
  unfold initialize_connection. rewrite run_bind, Hcheck. cbn.
  destruct (generate_freenas_volume_name _ _) as [e | fv]; cbn.
  { rewrite app_nil_r. repeat split; try congruence.
    intros e0 [= ->]; by left. }
  destruct (String.eqb_spec (fn_name fv) "") as [Hempty | Hfull]; cbn.
  - destruct (generate_freenas_snapshot_name _ _) as [e | fs]; cbn.
    { rewrite app_nil_r. repeat split; try congruence.
      intros e0 [= ->]; right; by left. }
    destruct (get_iscsi_portal _ _) as [e | portal]; cbn;
      rewrite app_nil_r; repeat split; try congruence;
      try (intros; simplify_eq; reflexivity).
    intros e0 [= ->]; right; by right.
  - destruct (get_iscsi_portal _ _) as [e | portal]; cbn;
      rewrite app_nil_r; repeat split; try congruence;
      try (intros; simplify_eq; reflexivity).
    intros e0 [= ->]; right; by right.
Qed.

(** ** Properties of the clone operations *)

(** C2, as the code has it.  [create_volume_from_snapshot] promotes the new
    volume only behind three tests, taken in this order: the option
    [image_volume_cache_enabled] is set, the backend says that the
    volume's project is the service project, and the display name matches
    the image-cache pattern.  Whenever a promotion appears in the trace,
    all three hold.  When the names resolve and the clone and the target
    creation succeed, the promotion of the new backend volume appears in
    the trace if and only if all three hold. *)
Theorem create_volume_from_snapshot_promotion
    (self : FreeNASISCSIDriver) (volume : Volume) (snapshot : Snapshot) (w : W) :
  let out := run h (create_volume_from_snapshot self volume snapshot) w in
  let cache_enabled :=
    image_volume_cache_enabled (self_configuration self) = true in
  let name_matches :=
    exists display_name,
      vol_display_name volume = Some display_name
      /\ re_match image_cache_pattern display_name = true in
  let service_project_at (w' : W) :=
    fst (h (common.is_service_project (vol_project_id volume)) w') = inr true in
  (forall name,
     Common (common.promote_volume name) ∈ trace out ->
     cache_enabled /\ (exists w', service_project_at w') /\ name_matches)
  /\ (forall existing_vol freenas_snapshot freenas_volume w1 w2,
        generate_freenas_volume_name (snap_volume_name snapshot) (iqn_prefix self)
          = inr existing_vol ->
        generate_freenas_snapshot_name (snap_name snapshot) (iqn_prefix self)
          = inr freenas_snapshot ->
        generate_freenas_volume_name (vol_name volume) (iqn_prefix self)
          = inr freenas_volume ->
        h (common.create_volume_from_snapshot (fn_name freenas_volume)
             (fn_name freenas_snapshot) (fn_name existing_vol)) w = (inr tt, w1) ->
        h (common.create_iscsitarget (fn_target freenas_volume)
             (fn_name freenas_volume)) w1 = (inr tt, w2) ->
        (Common (common.promote_volume (fn_name freenas_volume)) ∈ trace out
         <-> cache_enabled /\ service_project_at w2 /\ name_matches)).
Proof.
  intros out cache_enabled name_matches service_project_at.
  subst out cache_enabled name_matches service_project_at.
  unfold create_volume_from_snapshot, match_display_name. split.
  - intros name.
    destruct (generate_freenas_volume_name (snap_volume_name snapshot) _)
      as [e | ex]; cbn; [intros Hin; trace_mem Hin |].
    destruct (generate_freenas_snapshot_name _ _) as [e | fs]; cbn;
      [intros Hin; trace_mem Hin |].
    destruct (generate_freenas_volume_name (vol_name volume) _)
      as [e | fv]; cbn; [intros Hin; trace_mem Hin |].
    destruct (h _ w) as [[e | []] w1]; cbn; [intros Hin; trace_mem Hin |].
    destruct (h _ w1) as [[e | []] w2]; cbn; [intros Hin; trace_mem Hin |].
    destruct (image_volume_cache_enabled _); cbn; [| intros Hin; trace_mem Hin].
    destruct (h _ w2) as [[e | [|]] w3] eqn:Hservice; cbn;
      [intros Hin; trace_mem Hin | | intros Hin; trace_mem Hin].
    destruct (vol_display_name volume) as [display_name |]; cbn;
      [| intros Hin; trace_mem Hin].
    destruct (re_match image_cache_pattern display_name) eqn:Hmatch; cbn;
      [| intros Hin; trace_mem Hin].
    intros _. split; [done |]. split.
    + exists w2. by rewrite Hservice.
    + by exists display_name.
  - intros ex fs fv w1 w2 -> -> -> Hclone Htarget. cbn.
    rewrite Hclone. cbn. rewrite Htarget. cbn.
    destruct (image_volume_cache_enabled _); cbn.
    2: { split; [intros Hin; trace_mem Hin | by intros [? _]]. }
    destruct (h _ w2) as [[e | [|]] w3] eqn:Hservice; cbn.
    1, 3: split; [intros Hin; trace_mem Hin | by intros (_ & ? & _)].
    destruct (vol_display_name volume) as [display_name |]; cbn.
    2: { split; [intros Hin; trace_mem Hin | by intros (_ & _ & ? & ? & _)]. }
    destruct (re_match image_cache_pattern display_name) eqn:Hmatch; cbn.
    2: { split; [intros Hin; trace_mem Hin |].
         intros (_ & _ & dn & [= <-] & Hdn). congruence. }
    split.
    + intros _. split; [done |]. split; [done |]. by exists display_name.
    + intros _.
      destruct (h (common.promote_volume (fn_name fv)) w3) as [[e | []] w4];
        cbn; do 3 apply list_elem_of_further; apply list_elem_of_here.
Qed.

Lemma count_ops_app (p : op -> bool) (t1 t2 : list op) :
  count_ops p (t1 ++ t2)%list = (count_ops p t1 + count_ops p t2)%nat.
Proof.
  induction t1 as [| o t1 IH]; cbn; [reflexivity |]. rewrite IH. lia.
Qed.

Lemma create_snapshot_never_deletes
    (self : FreeNASISCSIDriver) (snapshot : Snapshot) (w : W) :
  count_ops is_delete_snapshot (trace (run h (create_snapshot self snapshot) w))
    = 0%nat.
Proof.
  unfold create_snapshot.
  destruct (generate_freenas_snapshot_name _ _) as [e | fs]; cbn;
    [reflexivity |].
  destruct (generate_freenas_volume_name _ _) as [e | fv]; cbn;
    [reflexivity |].
  destruct (h _ w) as [[e | []] w1]; reflexivity.
Qed.

Lemma create_volume_from_snapshot_never_deletes
    (self : FreeNASISCSIDriver) (volume : Volume) (snapshot : Snapshot) (w : W) :
  count_ops is_delete_snapshot
    (trace (run h (create_volume_from_snapshot self volume snapshot) w)) = 0%nat.
Proof.
  unfold create_volume_from_snapshot, match_display_name.
  destruct (generate_freenas_volume_name (snap_volume_name snapshot) _)
    as [e | ex]; cbn; [reflexivity |].
  destruct (generate_freenas_snapshot_name _ _) as [e | fs]; cbn;
    [reflexivity |].
  destruct (generate_freenas_volume_name (vol_name volume) _)
    as [e | fv]; cbn; [reflexivity |].
  destruct (h _ w) as [[e | []] w1]; cbn; [reflexivity |].
  destruct (h _ w1) as [[e | []] w2]; cbn; [reflexivity |].
  destruct (image_volume_cache_enabled _); cbn; [| reflexivity].
  destruct (h _ w2) as [[e | [|]] w3]; cbn; [reflexivity | | reflexivity].
  destruct (vol_display_name volume) as [display_name |]; cbn; [| reflexivity].
  destruct (re_match image_cache_pattern display_name); cbn; [| reflexivity].
  destruct (h _ w3) as [[e | []] w4]; reflexivity.
Qed.

Lemma create_volume_from_snapshot_clones_once
    (self : FreeNASISCSIDriver) (volume : Volume) (snapshot : Snapshot) (w : W) :
  let t := trace (run h (create_volume_from_snapshot self volume snapshot) w) in
  count_ops is_create_snapshot t = 0%nat
  /\ (count_ops is_clone_from_snapshot t <= 1)%nat.
Proof.
  unfold create_volume_from_snapshot, match_display_name.
  destruct (generate_freenas_volume_name (snap_volume_name snapshot) _)
    as [e | ex]; cbn; [lia |].
  destruct (generate_freenas_snapshot_name _ _) as [e | fs]; cbn; [lia |].
  destruct (generate_freenas_volume_name (vol_name volume) _)
    as [e | fv]; cbn; [lia |].
  destruct (h _ w) as [[e | []] w1]; cbn; [lia |].
  destruct (h _ w1) as [[e | []] w2]; cbn; [lia |].
  destruct (image_volume_cache_enabled _); cbn; [| lia].
  destruct (h _ w2) as [[e | [|]] w3]; cbn; [lia | | lia].
  destruct (vol_display_name volume) as [display_name |]; cbn; [| lia].
  destruct (re_match image_cache_pattern display_name); cbn; [| lia].
  destruct (h _ w3) as [[e | []] w4]; cbn; lia.
Qed.

(** C5. [create_cloned_volume(volume, src_vref)] is one [create_snapshot] of
    the transient snapshot (named ['name-' + volume id], taken on the
    source volume) followed by one [create_volume_from_snapshot] of the
    new volume from that snapshot.  No run of it ever deletes a snapshot.
    When the names resolve and the backend accepts the snapshot and the
    clone, the trace starts with the creation of that snapshot on the
    source's backend volume, then the clone of the new backend volume from
    it, and holds exactly one snapshot creation and exactly one clone. *)
Theorem create_cloned_volume_snapshot_then_clone
    (self : FreeNASISCSIDriver) (volume src_vref : Volume) (w : W) :
  let temp := {| snap_name := "name-" ++ vol_id volume;
                 snap_volume_name := vol_name src_vref |} in
  let out := run h (create_cloned_volume self volume src_vref) w in
  create_cloned_volume self volume src_vref
    = (create_snapshot self temp ≫=
         fun _ => create_volume_from_snapshot self volume temp)
  /\ count_ops is_delete_snapshot (trace out) = 0%nat
  /\ (forall freenas_snapshot source_volume freenas_volume w1 w2,
        generate_freenas_snapshot_name (snap_name temp) (iqn_prefix self)
          = inr freenas_snapshot ->
        generate_freenas_volume_name (vol_name src_vref) (iqn_prefix self)
          = inr source_volume ->
        generate_freenas_volume_name (vol_name volume) (iqn_prefix self)
          = inr freenas_volume ->
        h (common.create_snapshot (fn_name freenas_snapshot)
             (fn_name source_volume)) w = (inr tt, w1) ->
        h (common.create_volume_from_snapshot (fn_name freenas_volume)
             (fn_name freenas_snapshot) (fn_name source_volume)) w1
          = (inr tt, w2) ->
        (exists rest,
           trace out =
             Common (common.create_snapshot (fn_name freenas_snapshot)
                       (fn_name source_volume))
             :: Common (common.create_volume_from_snapshot
                          (fn_name freenas_volume) (fn_name freenas_snapshot)
                          (fn_name source_volume))
             :: rest)
        /\ count_ops is_create_snapshot (trace out) = 1%nat
        /\ count_ops is_clone_from_snapshot (trace out) = 1%nat).
Proof.
  intros temp out. subst out temp. split; [reflexivity |].
  unfold create_cloned_volume, temp_snapshot. rewrite run_bind.
  set (temp := {| snap_name := "name-" ++ vol_id volume;
                  snap_volume_name := vol_name src_vref |}).
  split.
  - pose proof (create_snapshot_never_deletes self temp w) as Hsnap.
    destruct (returned (run h (create_snapshot self temp) w)); cbn;
      [exact Hsnap |].
    rewrite count_ops_app, Hsnap.
    apply create_volume_from_snapshot_never_deletes.
  - intros fs src fv w1 w2 Hfs Hsrc Hfv Hsnap Hclone.
    change (snap_name temp) with ("name-" ++ vol_id volume) in Hfs.
    assert (run h (create_snapshot self temp) w
            = Outcome [Common (common.create_snapshot (fn_name fs) (fn_name src))]
                (inr tt) w1) as ->.
    { unfold create_snapshot. cbn [snap_name snap_volume_name temp].
      rewrite Hfs. cbn. rewrite Hsrc. cbn. by rewrite Hsnap. }
    cbn [returned trace final].
    pose proof (create_volume_from_snapshot_clones_once self volume temp w1)
      as [Hnosnap Hone].
    assert (exists rest,
              trace (run h (create_volume_from_snapshot self volume temp) w1)
              = Common (common.create_volume_from_snapshot (fn_name fv)
                          (fn_name fs) (fn_name src)) :: rest) as [rest Hrest].
    { unfold create_volume_from_snapshot. cbn [snap_name snap_volume_name temp].
      rewrite Hsrc. cbn. rewrite Hfs. cbn. rewrite Hfv. cbn.
      rewrite Hclone. cbn. eauto. }
    cbn zeta. cbn [trace app].
    rewrite Hrest in Hnosnap, Hone |- *. cbn in Hnosnap, Hone |- *.
    split; [eauto |]. split; lia.
Qed.

(** ** Properties of the admission check *)

Lemma setting_nil (var : string) (d : Z) : setting var d [] = d.
Proof. reflexivity. Qed.

Lemma setting_cons_applies (var : string) (d z : Z) (item : dict)
    (rest : list dict) :
  Forall (fun item' => tunable_applies var item' = true ->
                       is_Some (tunable_value item')) rest ->
  tunable_applies var item = true ->
  tunable_value item = Some z ->
  setting var d (item :: rest) = setting var z rest.
Proof.
  intros Hrest Happ Hval. unfold setting.
  rewrite filter_cons_True by done.
  destruct (filter _ rest) as [| item' kept] eqn:Hkept.
  - cbn. by rewrite Hval.
  - rewrite last_cons_cons.
    destruct (last (item' :: kept)) as [item0 |] eqn:Hlast;
      [| by apply last_None in Hlast].
    apply last_Some_elem_of in Hlast. rewrite <- Hkept in Hlast.
    apply list_elem_of_filter in Hlast as [Happ0 Hin].
    rewrite Forall_forall in Hrest.
    destruct (Hrest item0 Hin Happ0) as [z0 ->]. reflexivity.
Qed.

Lemma setting_cons_skips (var : string) (d : Z) (item : dict)
    (rest : list dict) :
  tunable_applies var item = false ->
  setting var d (item :: rest) = setting var d rest.
Proof.
  intros Happ. unfold setting. rewrite filter_cons_False; [done |].
  by rewrite Happ.
Qed.

Lemma convertible_under (var : string) (tunable : list dict) :
  var = KERN_CAM_CTL_MAX_LUNS \/ var = KERN_CAM_CTL_MAX_PORTS ->
  Forall convertible tunable ->
  Forall (fun item => tunable_applies var item = true ->
                      is_Some (tunable_value item)) tunable.
Proof.
  intros Hvar Hall. eapply Forall_impl; [exact Hall |].
  intros item Hconv Happ. apply Hconv.
  destruct Hvar as [-> | ->]; rewrite Happ; [reflexivity |].
  apply orb_true_r.
Qed.

(** The loop of [check_connection] computes the two settings. *)
Lemma tunable_loop_settings (tunable : list dict) (max_luns max_ports : Z) :
  Forall convertible tunable ->
  tunable_loop tunable max_luns max_ports
    = inr (setting KERN_CAM_CTL_MAX_LUNS max_luns tunable,
           setting KERN_CAM_CTL_MAX_PORTS max_ports tunable).
Proof.
  intros Hconv. revert max_luns max_ports.
  induction Hconv as [| item rest Hitem Hrest IH]; intros max_luns max_ports;
    [reflexivity |].
  pose proof (convertible_under KERN_CAM_CTL_MAX_LUNS rest (or_introl eq_refl) Hrest)
    as Hrest_luns.
  pose proof (convertible_under KERN_CAM_CTL_MAX_PORTS rest (or_intror eq_refl) Hrest)
    as Hrest_ports.
  cbn [tunable_loop]. unfold convertible in Hitem.
  destruct (tunable_applies KERN_CAM_CTL_MAX_LUNS item) eqn:Hluns;
    destruct (tunable_applies KERN_CAM_CTL_MAX_PORTS item) eqn:Hports;
    cbn in Hitem.
  - destruct Hitem as [z Hz]; [done |].
    rewrite (setting_cons_applies _ max_luns z),
            (setting_cons_applies _ max_ports z) by done.
    unfold tunable_value in Hz.
    destruct (tunable_int item) as [e | z']; [done |].
    injection Hz as ->. apply IH.
  - destruct Hitem as [z Hz]; [done |].
    rewrite (setting_cons_applies _ max_luns z), setting_cons_skips by done.
    unfold tunable_value in Hz.
    destruct (tunable_int item) as [e | z']; [done |].
    injection Hz as ->. apply IH.
  - destruct Hitem as [z Hz]; [done |].
    rewrite setting_cons_skips, (setting_cons_applies _ max_ports z) by done.
    unfold tunable_value in Hz.
    destruct (tunable_int item) as [e | z']; [done |].
    injection Hz as ->. apply IH.
  - rewrite !setting_cons_skips by done. apply IH.
Qed.

(** The only tunables that are not convertible are those whose value is a
    string that [isnumeric] accepts and that holds a character other than
    a decimal digit. *)
Lemma convertible_unless_non_decimal (item : dict) :
  (forall s, item !! "value" = Some (PyStr s) ->
             isnumeric s = true -> all_chars is_decimal_char s = true) ->
  convertible item.
Proof.
  intros Hdecimal Happlies.
  assert (isnumeric (py_str (dict_get item "value")) = true) as Hnumeric.
  { unfold tunable_applies in Happlies.
    destruct (isnumeric _); [reflexivity |].
    rewrite !andb_false_r in Happlies. discriminate. }
  unfold tunable_value, tunable_int, dict_item. unfold dict_get in Hnumeric.
  destruct (item !! "value") as [[| b | z | s] |] eqn:Hvalue;
    cbn in Hnumeric |- *; try discriminate; eauto.
  specialize (Hdecimal s eq_refl Hnumeric). unfold int_of_str.
  destruct s as [| c s']; [discriminate |]. rewrite Hdecimal. eauto.
Qed.

(** C1, as the code has it.  On a backend whose parsed major version is
    ['12.0'] or ['13.0'], with tunables whose honoured values are accepted
    by [int], the admission check reads the tunables, takes [max_luns]
    from the enabled, numeric tunable named [kern.cam.ctl.max_luns]
    (default 1024) and [max_ports] from the one named
    [kern.cam.ctl.max_ports] (default 256), and then looks at the cinder
    configuration sections.  With at least one section loaded it returns
    [False] exactly when the number of attached volumes of this backend is
    greater than or equal to the minimum of the two.  With no section
    loaded it returns [True] without listing the volumes, whatever their
    number. *)
Theorem check_connection_admission
    (self : FreeNASISCSIDriver) (version : string) (parsed : list pyval)
    (major : pyval) (logged tunable : list dict) (sections : list string)
    (w w1 w2 w3 w4 : W) :
  h common.system_version w = (inr version, w1) ->
  parse_truenas_version version = inr parsed ->
  parsed !! 1%nat = Some major ->
  major = PyStr "12.0" \/ major = PyStr "13.0" ->
  h common.tunable w1 = (inr logged, w2) ->
  h common.tunable w2 = (inr tunable, w3) ->
  Forall convertible tunable ->
  h cinderapi.list_all_sections w3 = (inr sections, w4) ->
  let max_luns := setting KERN_CAM_CTL_MAX_LUNS 1024 tunable in
  let max_ports := setting KERN_CAM_CTL_MAX_PORTS 256 tunable in
  let out := run h (check_connection self) w in
  (sections <> [] ->
   forall (vols : list volume_row) (w5 : W),
     h cinderapi.volume_get_all w4 = (inr vols, w5) ->
     let count := attached_truenas_vol_count vols in
     (returned out = inr false <-> Z.min max_luns max_ports <= count)
     /\ (returned out = inr true <-> count < Z.min max_luns max_ports))
  /\ (sections = [] ->
      out = Outcome [Common common.system_version; Common common.tunable;
                     Common common.tunable;
                     CinderApi cinderapi.list_all_sections]
              (inr true) w4).
Proof.
  intros Hver Hparse Hidx Hmajor Hlog Htun Hconv Hsec max_luns max_ports out.
  assert (out =
          let reads := [Common common.system_version; Common common.tunable;
                        Common common.tunable;
                        CinderApi cinderapi.list_all_sections] in
          match sections with
          | [] => Outcome reads (inr true) w4
          | _ :: _ =>
              match h cinderapi.volume_get_all w4 with
              | (inl e, w5) =>
                  Outcome (reads ++ [CinderApi cinderapi.volume_get_all])
                    (inl e) w5
              | (inr vols, w5) =>
                  Outcome (reads ++ [CinderApi cinderapi.volume_get_all])
                    (inr (negb (Z.min max_luns max_ports
                                <=? attached_truenas_vol_count vols))) w5
              end
          end) as ->.
  { subst out. unfold check_connection. cbn. rewrite Hver. cbn.
    rewrite Hparse. cbn. unfold tuple_item. rewrite Hidx. cbn.
    assert (py_eq_str major "12.0" || py_eq_str major "13.0" = true) as ->
      by (destruct Hmajor as [-> | ->]; reflexivity).
    cbn. rewrite Hlog. cbn. rewrite Htun. cbn.
    rewrite (tunable_loop_settings _ _ _ Hconv). cbn.
    rewrite Hsec. cbn.
    destruct sections as [| section sections']; [reflexivity |].
    replace (0 <? Z.of_nat (length (section :: sections'))) with true
      by (symmetry; apply Z.ltb_lt; cbn [length]; lia).
    cbn. fold max_luns max_ports.
    destruct (h cinderapi.volume_get_all w4) as [[e | vols] w5]; cbn;
      [reflexivity |].
    destruct (Z.min max_luns max_ports <=? attached_truenas_vol_count vols);
      reflexivity. }
  split.
  - intros Hloaded vols w5 Hvols count.
    destruct sections as [| section sections']; [done |].
    cbn zeta. rewrite Hvols. cbn [returned]. fold count.
    destruct (Z.leb_spec (Z.min max_luns max_ports) count); cbn;
      split; split; intros; (done || lia).
  - by intros ->.
Qed.

(** ** Further properties of the volume, export and snapshot operations *)

(** X1. [delete_volume] removes the export target before the storage
    object.  When the target removal raises, that exception is passed on
    and the storage object is left in place; otherwise the storage object
    is removed next and the outcome of the call is the outcome of that
    removal. *)
Theorem delete_volume_target_before_storage
    (self : FreeNASISCSIDriver) (volume : Volume) (freenas_volume : freenas_name)
    (w : W) :
  generate_freenas_volume_name (vol_name volume) (iqn_prefix self)
    = inr freenas_volume ->
  fn_target freenas_volume <> "" ->
  fn_name freenas_volume <> "" ->
  let drop_target := common.delete_iscsitarget (fn_target freenas_volume) in
  let drop_storage := common.delete_volume (fn_name freenas_volume) in
  run h (delete_volume self volume) w =
    match h drop_target w with
    | (inl e, w1) => Outcome [Common drop_target] (inl e) w1
    | (inr _, w1) =>
        Outcome [Common drop_target; Common drop_storage]
                (fst (h drop_storage w1)) (snd (h drop_storage w1))
    end.
Proof.
  intros Hname Htarget Hstorage drop_target drop_storage.
  subst drop_target drop_storage.
  unfold delete_volume. rewrite Hname. cbn.
  apply String.eqb_neq in Htarget, Hstorage. rewrite Htarget. cbn.
  destruct (h _ w) as [[e | []] w1]; cbn; [reflexivity |].
  rewrite Hstorage. cbn.
  destruct (h _ w1) as [[e | []] w2]; reflexivity.
Qed.

(** X2. Every call [delete_volume] makes is the removal of the resolved
    target or of the resolved storage object, and only for a name that is
    not empty: an empty target name or an empty backend name is skipped,
    and nothing is ever created. *)
Theorem delete_volume_only_removes_resolved_names
    (self : FreeNASISCSIDriver) (volume : Volume) (w : W) (o : op) :
  o ∈ trace (run h (delete_volume self volume) w) ->
  exists freenas_volume,
    generate_freenas_volume_name (vol_name volume) (iqn_prefix self)
      = inr freenas_volume
    /\ ((o = Common (common.delete_iscsitarget (fn_target freenas_volume))
         /\ fn_target freenas_volume <> "")
        \/ (o = Common (common.delete_volume (fn_name freenas_volume))
            /\ fn_name freenas_volume <> "")).
Proof.
  unfold delete_volume.
  destruct (generate_freenas_volume_name _ _) as [e | fv]; cbn;
    [by intros Hin%elem_of_nil |].
  intros Hin. exists fv. split; [reflexivity |].
  destruct (String.eqb_spec (fn_target fv) "") as [Ht | Ht]; cbn in Hin.
  - destruct (String.eqb_spec (fn_name fv) "") as [Hn | Hn]; cbn in Hin;
      [by apply elem_of_nil in Hin |].
    destruct (h _ w) as [[e | []] w1]; cbn in Hin;
      apply list_elem_of_singleton in Hin; subst o; by right.
  - destruct (h _ w) as [[e | []] w1]; cbn in Hin.
    { apply list_elem_of_singleton in Hin; subst o; by left. }
    apply elem_of_cons in Hin as [-> | Hin]; [by left |].
    destruct (String.eqb_spec (fn_name fv) "") as [Hn | Hn]; cbn in Hin;
      [by apply elem_of_nil in Hin |].
    destruct (h _ w1) as [[e | []] w2]; cbn in Hin;
      apply list_elem_of_singleton in Hin; subst o; by right.
Qed.

(** X3. [delete_volume] addresses exactly what [create_volume] made: when
    every call succeeds, creating a volume and then deleting it provisions
    the storage object, binds the target to it, removes that target and
    removes that storage object, in this order. *)
Theorem create_then_delete_volume
    (self : FreeNASISCSIDriver) (volume : Volume) (freenas_volume : freenas_name)
    (w w1 w2 w3 w4 : W) (r : result unit) :
  generate_freenas_volume_name (vol_name volume) (iqn_prefix self)
    = inr freenas_volume ->
  fn_target freenas_volume <> "" ->
  fn_name freenas_volume <> "" ->
  h (common.create_volume (fn_name freenas_volume) (vol_size volume)) w
    = (inr tt, w1) ->
  h (common.create_iscsitarget (fn_target freenas_volume)
       (fn_name freenas_volume)) w1 = (inr tt, w2) ->
  h (common.delete_iscsitarget (fn_target freenas_volume)) w2 = (inr tt, w3) ->
  h (common.delete_volume (fn_name freenas_volume)) w3 = (r, w4) ->
  run h (create_volume self volume ≫= fun _ => delete_volume self volume) w
  = Outcome
      [Common (common.create_volume (fn_name freenas_volume) (vol_size volume));
       Common (common.create_iscsitarget (fn_target freenas_volume)
                 (fn_name freenas_volume));
       Common (common.delete_iscsitarget (fn_target freenas_volume));
       Common (common.delete_volume (fn_name freenas_volume))]
      r w4.
Proof.
  intros Hname Htarget Hstorage Hc1 Hc2 Hd1 Hd2.
  rewrite run_bind.
  assert (run h (create_volume self volume) w
          = Outcome
              [Common (common.create_volume (fn_name freenas_volume)
                         (vol_size volume));
               Common (common.create_iscsitarget (fn_target freenas_volume)
                         (fn_name freenas_volume))]
              (inr tt) w2) as ->.
  { unfold create_volume. rewrite Hname. cbn. rewrite Hc1. cbn.
    by rewrite Hc2. }
  cbn [returned trace final].
  unfold delete_volume. rewrite Hname. cbn.
  apply String.eqb_neq in Htarget, Hstorage. rewrite Htarget. cbn.
  rewrite Hd1. cbn. rewrite Hstorage. cbn. rewrite Hd2.
  destruct r as [e | []]; reflexivity.
Qed.

(** X4. When the backend refuses the storage object, [create_volume]
    passes the exception on and never asks for the export target. *)
Theorem create_volume_storage_failure
    (self : FreeNASISCSIDriver) (volume : Volume) (freenas_volume : freenas_name)
    (w w1 : W) (e : exn) :
  generate_freenas_volume_name (vol_name volume) (iqn_prefix self)
    = inr freenas_volume ->
  h (common.create_volume (fn_name freenas_volume) (vol_size volume)) w
    = (inl e, w1) ->
  run h (create_volume self volume) w
  = Outcome
      [Common (common.create_volume (fn_name freenas_volume) (vol_size volume))]
      (inl e) w1.
Proof.
  intros Hname Hcreate. unfold create_volume. rewrite Hname. cbn.
  by rewrite Hcreate.
Qed.

(** X5. Name resolution comes before any call to the backend: when the
    volume name does not resolve, [create_volume], [delete_volume] and
    [extend_volume] raise the resolver's exception and the backend is not
    contacted at all. *)
Theorem volume_name_failure_makes_no_call
    (self : FreeNASISCSIDriver) (volume : Volume) (new_size : Z)
    (w : W) (e : exn) :
  generate_freenas_volume_name (vol_name volume) (iqn_prefix self) = inl e ->
  run h (create_volume self volume) w = Outcome [] (inl e) w
  /\ run h (delete_volume self volume) w = Outcome [] (inl e) w
  /\ run h (extend_volume self volume new_size) w = Outcome [] (inl e) w.
Proof.
  intros Hname. unfold create_volume, delete_volume, extend_volume.
  rewrite Hname. by cbn.
Qed.

(** X6. [create_export] and [ensure_export] behave alike on every backend:
    one call with the cinder name of the volume (the backend name is not
    resolved), whose exception is passed on, and whose handle is returned
    as the only entry, ['provider_location'], of the result. *)
Theorem export_returns_provider_location
    (self : FreeNASISCSIDriver) (volume : Volume) (w : W) :
  let out := run h (create_export self volume) w in
  let export := common.create_export (vol_name volume) in
  run h (ensure_export self volume) w = out
  /\ trace out = [Common export]
  /\ final out = snd (h export w)
  /\ (forall e, fst (h export w) = inl e -> returned out = inl e)
  /\ (forall handle, fst (h export w) = inr handle ->
        exists d, returned out = inr d
                  /\ d !! "provider_location" = Some (PyStr handle)
                  /\ forall k, k <> "provider_location" -> d !! k = None).
Proof.
  intros out export. subst out export. split; [reflexivity |].
  unfold create_export. cbn.
  destruct (h _ w) as [[e | handle] w1]; cbn.
  - repeat split; [congruence | discriminate].
  - repeat split; [discriminate |].
    intros handle' [= <-]. eexists. split; [reflexivity |]. split.
    + apply lookup_singleton_eq.
    + intros k Hk. by apply lookup_singleton_ne.
Qed.

(** X7. [create_snapshot] and [delete_snapshot] address the same backend
    snapshot of the same backend volume.  Each makes one call, and its
    outcome is the backend's answer as it is: a refusal of the deletion
    (dependent clones, say) reaches the caller. *)
Theorem snapshot_calls_same_pair
    (self : FreeNASISCSIDriver) (snapshot : Snapshot)
    (freenas_snapshot freenas_volume : freenas_name) (w w' : W) :
  generate_freenas_snapshot_name (snap_name snapshot) (iqn_prefix self)
    = inr freenas_snapshot ->
  generate_freenas_volume_name (snap_volume_name snapshot) (iqn_prefix self)
    = inr freenas_volume ->
  let make := common.create_snapshot (fn_name freenas_snapshot)
                (fn_name freenas_volume) in
  let drop := common.delete_snapshot (fn_name freenas_snapshot)
                (fn_name freenas_volume) in
  run h (create_snapshot self snapshot) w
    = Outcome [Common make] (fst (h make w)) (snd (h make w))
  /\ run h (delete_snapshot self snapshot) w'
    = Outcome [Common drop] (fst (h drop w')) (snd (h drop w')).
Proof.
  intros Hsnap Hvol make drop. subst make drop.
  unfold create_snapshot, delete_snapshot. rewrite Hsnap, Hvol. cbn.
  split.
  - destruct (h _ w) as [[e | []] w1]; reflexivity.
  - destruct (h _ w') as [[e | []] w1]; reflexivity.
Qed.

(** X8. The snapshot operations resolve their names before any call: when
    the snapshot name or the parent volume name does not resolve,
    [create_snapshot], [delete_snapshot] and [create_volume_from_snapshot]
    end in an exception without contacting the backend. *)
Theorem snapshot_name_failure_makes_no_call
    (self : FreeNASISCSIDriver) (volume : Volume) (snapshot : Snapshot)
    (w : W) (e : exn) :
  generate_freenas_snapshot_name (snap_name snapshot) (iqn_prefix self) = inl e
  \/ generate_freenas_volume_name (snap_volume_name snapshot) (iqn_prefix self)
     = inl e ->
  let quiet {A : Type} (out : outcome W A) :=
    trace out = [] /\ final out = w /\ exists e', returned out = inl e' in
  quiet (run h (create_snapshot self snapshot) w)
  /\ quiet (run h (delete_snapshot self snapshot) w)
  /\ quiet (run h (create_volume_from_snapshot self volume snapshot) w).
Proof.
  intros Hfail quiet. subst quiet.
  unfold create_snapshot, delete_snapshot, create_volume_from_snapshot.
  destruct Hfail as [Hsnap | Hvol].
  - rewrite Hsnap.
    destruct (generate_freenas_volume_name (snap_volume_name snapshot) _);
      cbn; repeat split; eauto.
  - rewrite Hvol.
    destruct (generate_freenas_snapshot_name _ _); cbn; repeat split; eauto.
Qed.

(** ** Further properties of the admission check *)

Lemma tunable_loop_app (l1 l2 : list dict) (max_luns max_ports : Z) :
  tunable_loop (l1 ++ l2) max_luns max_ports =
  match tunable_loop l1 max_luns max_ports with
  | inl e => inl e
  | inr limits => tunable_loop l2 (fst limits) (snd limits)
  end.
Proof.
  revert max_luns max_ports.
  induction l1 as [| item l1 IH]; intros max_luns max_ports; [reflexivity |].
  cbn [app tunable_loop].
  destruct (if tunable_applies KERN_CAM_CTL_MAX_LUNS item then _ else _)
    as [e | max_luns']; [reflexivity |].
  destruct (if tunable_applies KERN_CAM_CTL_MAX_PORTS item then _ else _)
    as [e | max_ports']; [reflexivity |].
  apply IH.
Qed.

Lemma tunable_applies_one_name (item : dict) :
  tunable_applies KERN_CAM_CTL_MAX_LUNS item = true ->
  tunable_applies KERN_CAM_CTL_MAX_PORTS item = false.
Proof.
  unfold tunable_applies. intros Hluns.
  apply andb_true_iff in Hluns as [Hluns _].
  apply andb_true_iff in Hluns as [_ Hvar].
  destruct (dict_get item "var") as [| b | z | s]; try discriminate.
  cbn in Hvar. apply String.eqb_eq in Hvar as ->. cbn.
  by rewrite andb_false_r.
Qed.

Lemma ignored_tunable_applies (var : string) (item : dict) :
  var = KERN_CAM_CTL_MAX_LUNS \/ var = KERN_CAM_CTL_MAX_PORTS ->
  ignored_tunable item -> tunable_applies var item = false.
Proof.
  unfold tunable_applies.
  intros Hvar [Hoff | [[Hluns Hports] | Hvalue]].
  - by rewrite Hoff.
  - destruct Hvar as [-> | ->]; [rewrite Hluns | rewrite Hports];
      by rewrite andb_false_r.
  - rewrite Hvalue. apply andb_false_r.
Qed.

Lemma tunable_loop_ignored (tunable : list dict) (max_luns max_ports : Z) :
  Forall ignored_tunable tunable ->
  tunable_loop tunable max_luns max_ports = inr (max_luns, max_ports).
Proof.
  induction 1 as [| item rest Hitem _ IH]; [reflexivity |].
  cbn [tunable_loop].
  rewrite !ignored_tunable_applies by auto. apply IH.
Qed.

(** The run of the check on an enforcing backend, up to the loop over the
    tunables and from it. *)
Lemma check_connection_enforcing_run
    (self : FreeNASISCSIDriver) (version : string) (parsed : list pyval)
    (major : pyval) (logged tunable : list dict) (w w1 w2 w3 : W) :
  h common.system_version w = (inr version, w1) ->
  parse_truenas_version version = inr parsed ->
  parsed !! 1%nat = Some major ->
  major = PyStr "12.0" \/ major = PyStr "13.0" ->
  h common.tunable w1 = (inr logged, w2) ->
  h common.tunable w2 = (inr tunable, w3) ->
  let reads := [Common common.system_version; Common common.tunable;
                Common common.tunable] in
  run h (check_connection self) w =
  match tunable_loop tunable 1024 256 with
  | inl e => Outcome reads (inl e) w3
  | inr limits =>
      match h cinderapi.list_all_sections w3 with
      | (inl e, w4) =>
          Outcome (reads ++ [CinderApi cinderapi.list_all_sections]) (inl e) w4
      | (inr [], w4) =>
          Outcome (reads ++ [CinderApi cinderapi.list_all_sections]) (inr true) w4
      | (inr (_ :: _), w4) =>
          match h cinderapi.volume_get_all w4 with
          | (inl e, w5) =>
              Outcome (reads ++ [CinderApi cinderapi.list_all_sections;
                                 CinderApi cinderapi.volume_get_all]) (inl e) w5
          | (inr vols, w5) =>
              Outcome (reads ++ [CinderApi cinderapi.list_all_sections;
                                 CinderApi cinderapi.volume_get_all])
                (inr (negb (Z.min (fst limits) (snd limits)
                            <=? attached_truenas_vol_count vols))) w5
          end
      end
  end.
Proof.
  intros Hver Hparse Hidx Hmajor Hlog Htun reads. subst reads.
  unfold check_connection. cbn. rewrite Hver. cbn.
  rewrite Hparse. cbn. unfold tuple_item. rewrite Hidx. cbn.
  assert (py_eq_str major "12.0" || py_eq_str major "13.0" = true) as ->
    by (destruct Hmajor as [-> | ->]; reflexivity).
  cbn. rewrite Hlog. cbn. rewrite Htun. cbn.
  destruct (tunable_loop tunable 1024 256) as [e | limits]; cbn;
    [reflexivity |].
  destruct (h cinderapi.list_all_sections w3) as [[e | sections] w4]; cbn;
    [reflexivity |].
  destruct sections as [| section sections]; cbn [length]; [reflexivity |].
  replace (0 <? Z.of_nat (S (length sections))) with true
    by (symmetry; apply Z.ltb_lt; lia).
  cbn. destruct (h cinderapi.volume_get_all w4) as [[e | vols] w5]; cbn;
    [reflexivity |].
  destruct (Z.min (fst limits) (snd limits) <=? attached_truenas_vol_count vols);
    reflexivity.
Qed.

(** Every call of the check is a read. *)
Lemma check_connection_reads (self : FreeNASISCSIDriver) (w : W) :
  forallb is_read_call (trace (run h (check_connection self) w)) = true.
Proof.
  unfold check_connection. cbn.
  destruct (h common.system_version w) as [[e | version] w1]; cbn;
    [reflexivity |].
  destruct (parse_truenas_version version) as [e | parsed]; cbn;
    [reflexivity |].
  destruct (tuple_item parsed 1) as [e | major]; cbn; [reflexivity |].
  destruct (py_eq_str major "12.0" || py_eq_str major "13.0"); cbn;
    [| reflexivity].
  destruct (h common.tunable w1) as [[e | logged] w2]; cbn; [reflexivity |].
  destruct (h common.tunable w2) as [[e | tunable] w3]; cbn; [reflexivity |].
  destruct (tunable_loop tunable 1024 256) as [e | limits]; cbn;
    [reflexivity |].
  destruct (h cinderapi.list_all_sections w3) as [[e | sections] w4]; cbn;
    [reflexivity |].
  destruct (0 <? Z.of_nat (length sections)); cbn; [| reflexivity].
  destruct (h cinderapi.volume_get_all w4) as [[e | vols] w5]; cbn;
    [reflexivity |].
  destruct (Z.min (fst limits) (snd limits) <=? attached_truenas_vol_count vols);
    reflexivity.
Qed.

(** X9. On an enforcing backend, while no configuration section is loaded
    the check allows the attachment without looking at the volumes,
    whatever the limits are. *)
Theorem check_connection_without_sections
    (self : FreeNASISCSIDriver) (version : string) (parsed : list pyval)
    (major : pyval) (logged tunable : list dict) (limits : Z * Z)
    (w w1 w2 w3 w4 : W) :
  h common.system_version w = (inr version, w1) ->
  parse_truenas_version version = inr parsed ->
  parsed !! 1%nat = Some major ->
  major = PyStr "12.0" \/ major = PyStr "13.0" ->
  h common.tunable w1 = (inr logged, w2) ->
  h common.tunable w2 = (inr tunable, w3) ->
  tunable_loop tunable 1024 256 = inr limits ->
  h cinderapi.list_all_sections w3 = (inr [], w4) ->
  run h (check_connection self) w
  = Outcome [Common common.system_version; Common common.tunable;
             Common common.tunable; CinderApi cinderapi.list_all_sections]
      (inr true) w4.
Proof.
  intros Hver Hparse Hidx Hmajor Hlog Htun Hloop Hsections.
  rewrite (check_connection_enforcing_run self version parsed major logged
             tunable w w1 w2 w3) by done.
  by rewrite Hloop, Hsections.
Qed.

(** X10. [check_connection] only reads: on every backend each of its calls
    is the version query, the tunables query, the listing of the
    configuration sections or the listing of the volumes; there are at
    most five of them and the version query comes first. *)
Theorem check_connection_only_reads (self : FreeNASISCSIDriver) (w : W) :
  let t := trace (run h (check_connection self) w) in
  forallb is_read_call t = true
  /\ (length t <= 5)%nat
  /\ head t = Some (Common common.system_version).
Proof.
  intros t. subst t. split; [apply check_connection_reads |].
  unfold check_connection. cbn.
  destruct (h common.system_version w) as [[e | version] w1]; cbn;
    [split; [lia | done] |].
  split; [| done].
  destruct (parse_truenas_version version) as [e | parsed]; cbn; [lia |].
  destruct (tuple_item parsed 1) as [e | major]; cbn; [lia |].
  destruct (py_eq_str major "12.0" || py_eq_str major "13.0"); cbn; [| lia].
  destruct (h common.tunable w1) as [[e | logged] w2]; cbn; [lia |].
  destruct (h common.tunable w2) as [[e | tunable] w3]; cbn; [lia |].
  destruct (tunable_loop tunable 1024 256) as [e | limits]; cbn; [lia |].
  destruct (h cinderapi.list_all_sections w3) as [[e | sections] w4]; cbn;
    [lia |].
  destruct (0 <? Z.of_nat (length sections)); cbn; [| lia].
  destruct (h cinderapi.volume_get_all w4) as [[e | vols] w5]; cbn; [lia |].
  destruct (Z.min (fst limits) (snd limits) <=? attached_truenas_vol_count vols);
    cbn; lia.
Qed.

(** X11. An enabled tunable named like one of the two settings whose value
    passes [isnumeric] and holds a character that is not a decimal digit
    makes the check raise [ValueError] on that value, after reading the
    tunables and before anything else is consulted, provided [int]
    accepts the tunables honoured before it. *)
Theorem check_connection_non_decimal_tunable
    (self : FreeNASISCSIDriver) (version : string) (parsed : list pyval)
    (major : pyval) (logged before after : list dict) (item : dict)
    (var value : string) (w w1 w2 w3 : W) :
  h common.system_version w = (inr version, w1) ->
  parse_truenas_version version = inr parsed ->
  parsed !! 1%nat = Some major ->
  major = PyStr "12.0" \/ major = PyStr "13.0" ->
  h common.tunable w1 = (inr logged, w2) ->
  h common.tunable w2 = (inr (before ++ item :: after)%list, w3) ->
  Forall convertible before ->
  truthy (dict_get item "enabled") = true ->
  item !! "var" = Some (PyStr var) ->
  var = KERN_CAM_CTL_MAX_LUNS \/ var = KERN_CAM_CTL_MAX_PORTS ->
  item !! "value" = Some (PyStr value) ->
  isnumeric value = true ->
  all_chars is_decimal_char value = false ->
  run h (check_connection self) w
  = Outcome [Common common.system_version; Common common.tunable;
             Common common.tunable]
      (inl (ValueError value)) w3.
Proof.
  intros Hver Hparse Hidx Hmajor Hlog Htun Hbefore Hon Hvar Hname Hvalue
    Hnumeric Hdecimal.
  rewrite (check_connection_enforcing_run self version parsed major logged
             (before ++ item :: after)%list w w1 w2 w3) by done.
  rewrite tunable_loop_app, (tunable_loop_settings _ _ _ Hbefore).
  cbn [fst snd tunable_loop].
  assert (tunable_int item = inl (ValueError value)) as Hint.
  { unfold tunable_int, dict_item. rewrite Hvalue. cbn. unfold int_of_str.
    destruct value as [| c value']; [discriminate |]. by rewrite Hdecimal. }
  assert (tunable_applies var item = true) as Happlies.
  { unfold tunable_applies. rewrite Hon. unfold dict_get.
    rewrite Hvar, Hvalue. cbn.
    by rewrite String.eqb_refl, Hnumeric. }
  destruct Hname as [-> | ->].
  - by rewrite Happlies, Hint.
  - destruct (tunable_applies KERN_CAM_CTL_MAX_LUNS item) eqn:Hluns.
    + by rewrite Hint.
    + by rewrite Happlies, Hint.
Qed.

(** X12. Tunables that are disabled, that carry another name or whose
    value is not numeric leave both defaults in place: when every tunable
    is of that kind, an enforcing backend with loaded sections denies
    exactly when at least 256 volumes are attached. *)
Theorem check_connection_default_limit
    (self : FreeNASISCSIDriver) (version : string) (parsed : list pyval)
    (major : pyval) (logged tunable : list dict) (section : string)
    (sections : list string) (vols : list volume_row) (w w1 w2 w3 w4 w5 : W) :
  h common.system_version w = (inr version, w1) ->
  parse_truenas_version version = inr parsed ->
  parsed !! 1%nat = Some major ->
  major = PyStr "12.0" \/ major = PyStr "13.0" ->
  h common.tunable w1 = (inr logged, w2) ->
  h common.tunable w2 = (inr tunable, w3) ->
  Forall ignored_tunable tunable ->
  h cinderapi.list_all_sections w3 = (inr (section :: sections), w4) ->
  h cinderapi.volume_get_all w4 = (inr vols, w5) ->
  returned (run h (check_connection self) w)
  = inr (negb (256 <=? attached_truenas_vol_count vols)).
Proof.
  intros Hver Hparse Hidx Hmajor Hlog Htun Hignored Hsections Hvols.
  rewrite (check_connection_enforcing_run self version parsed major logged
             tunable w w1 w2 w3) by done.
  by rewrite (tunable_loop_ignored _ _ _ Hignored), Hsections, Hvols.
Qed.

Lemma decimal_acc_nonneg (s : string) (acc : Z) :
  all_chars is_decimal_char s = true -> 0 <= acc -> 0 <= decimal_acc acc s.
Proof.
  revert acc. induction s as [| c s IH]; intros acc Hall Hacc; [done |].
  cbn in Hall. apply andb_true_iff in Hall as [Hc Hs].
  cbn [decimal_acc]. apply IH; [done |].
  unfold is_decimal_char in Hc. apply andb_true_iff in Hc as [Hlo _].
  apply N.leb_le in Hlo. unfold digit_value. lia.
Qed.

Lemma honoured_value_nonneg (var : string) (item : dict) (z : Z) :
  tunable_applies var item = true -> tunable_int item = inr z -> 0 <= z.
Proof.
  unfold tunable_applies, tunable_int, dict_item. intros Happlies.
  apply andb_true_iff in Happlies as [_ Hnumeric]. unfold dict_get in Hnumeric.
  destruct (item !! "value") as [[| b | z' | s] |]; cbn in Hnumeric |- *;
    try discriminate.
  - destruct b; discriminate.
  - intros [= <-]. destruct z' as [| p | p]; [lia | lia |].
    unfold pretty, pretty_Z in Hnumeric. discriminate.
  - unfold int_of_str. destruct s as [| c s]; [discriminate |].
    destruct (all_chars is_decimal_char (String c s)) eqn:Hdecimal;
      [| discriminate].
    intros [= <-]. apply (decimal_acc_nonneg (String c s) 0); [done | lia].
Qed.

(** X13. In the loop over the tunables a later tunable overrides an
    earlier one: appending an honoured tunable named
    [kern.cam.ctl.max_luns] replaces [max_luns] by its value and keeps
    [max_ports], and likewise for [kern.cam.ctl.max_ports]. *)
Theorem tunable_loop_last_wins
    (before : list dict) (item : dict) (max_luns max_ports z : Z)
    (limits : Z * Z) :
  tunable_loop before max_luns max_ports = inr limits ->
  tunable_int item = inr z ->
  (tunable_applies KERN_CAM_CTL_MAX_LUNS item = true ->
   tunable_loop (before ++ [item])%list max_luns max_ports
     = inr (z, snd limits))
  /\ (tunable_applies KERN_CAM_CTL_MAX_PORTS item = true ->
      tunable_loop (before ++ [item])%list max_luns max_ports
        = inr (fst limits, z)).
Proof.
  intros Hbefore Hint. rewrite tunable_loop_app, Hbefore. cbn [tunable_loop].
  split; intros Happlies.
  - by rewrite Happlies, (tunable_applies_one_name item Happlies), Hint.
  - destruct (tunable_applies KERN_CAM_CTL_MAX_LUNS item) eqn:Hluns.
    + apply tunable_applies_one_name in Hluns. congruence.
    + by rewrite Happlies, Hint.
Qed.

(** X14. The limits are never negative: whenever the loop over the
    tunables ends without raising, the two values it leaves are at least
    zero, since a value with a sign is not numeric and stays unused. *)
Theorem tunable_loop_limits_nonneg
    (tunable : list dict) (max_luns max_ports : Z) (limits : Z * Z) :
  0 <= max_luns -> 0 <= max_ports ->
  tunable_loop tunable max_luns max_ports = inr limits ->
  0 <= fst limits /\ 0 <= snd limits.
Proof.
  revert max_luns max_ports.
  induction tunable as [| item rest IH]; intros max_luns max_ports Hluns Hports.
  { intros [= <-]. done. }
  cbn [tunable_loop].
  destruct (tunable_applies KERN_CAM_CTL_MAX_LUNS item) eqn:Happ_luns;
    destruct (tunable_applies KERN_CAM_CTL_MAX_PORTS item) eqn:Happ_ports;
    try (destruct (tunable_int item) as [e | z] eqn:Hint; [discriminate |]);
    apply IH; eauto using honoured_value_nonneg.
Qed.

(** X15. What counts as an attachment of this backend: a row counts when
    its host holds ["@ixsystems-iscsi#"] at a position after the first
    character and its status is ['attached'], and then it adds one to the
    count; a row without host, with another status, or whose host lacks
    the marker or starts with it, leaves the count as it is. *)
Theorem attached_truenas_vol_count_row
    (before after : list volume_row) (vol : volume_row) :
  let counted :=
    exists host, row_host vol = Some host
                 /\ 0 < str_find host "@ixsystems-iscsi#"
                 /\ row_attach_status vol = "attached" in
  (counted ->
   attached_truenas_vol_count (before ++ vol :: after)
     = attached_truenas_vol_count (before ++ after) + 1)
  /\ (~ counted ->
      attached_truenas_vol_count (before ++ vol :: after)
        = attached_truenas_vol_count (before ++ after)).
Proof.
  intros counted.
  assert (is_attached_truenas_vol vol = true <-> counted) as Hspec.
  { unfold is_attached_truenas_vol, counted.
    destruct (row_host vol) as [host |]; [| split; [done | by intros (? & ? & _)]].
    rewrite !andb_true_iff, Z.ltb_lt, String.eqb_eq, negb_true_iff,
      String.eqb_neq.
    split.
    - intros [[_ Hfind] Hstatus]. by exists host.
    - intros (host' & [= <-] & Hfind & Hstatus). repeat split; try done.
      intros ->. vm_compute in Hfind. discriminate. }
  unfold attached_truenas_vol_count. rewrite !filter_app, filter_cons.
  split; intros Hrow.
  - apply Hspec in Hrow. rewrite decide_True by done.
    rewrite !length_app. cbn [length]. lia.
  - rewrite decide_False by (by rewrite Hspec). by rewrite !length_app.
Qed.

(** ** Further properties of [initialize_connection] *)

Lemma reads_hold_no_notification (t : list op) :
  forallb is_read_call t = true -> existsb is_notification t = false.
Proof.
  induction t as [| o t IH]; cbn; [done |].
  intros [Ho Ht]%andb_true_iff. rewrite (IH Ht).
  destruct o as [c | c | c]; [| | discriminate]; by destruct c.
Qed.

(** After a passing check the rest of [initialize_connection] is pure. *)
Lemma initialize_connection_after_check
    (self : FreeNASISCSIDriver) (volume : Volume) (connector : dict) (w : W) :
  let check := run h (check_connection self) w in
  let out := run h (initialize_connection self volume connector) w in
  match returned check with
  | inl e => out = Outcome (trace check) (inl e) (final check)
  | inr true => trace out = trace check /\ final out = final check
  | inr false =>
      trace out
      = (trace check ++ [MessageApi (message_api.create (denial_message volume))])%list
      /\ exists e, returned out = inl e
  end.
Proof.
  intros check out. subst check out.
  unfold initialize_connection. rewrite run_bind.
  generalize (run h (check_connection self) w). intros check.
  destruct (returned check) as [e | [|]]; cbn.
  - reflexivity.
  - destruct (generate_freenas_volume_name _ _) as [e | fv]; cbn;
      [by rewrite app_nil_r |].
    destruct (String.eqb (fn_name fv) ""); cbn.
    + destruct (generate_freenas_snapshot_name _ _) as [e | fs]; cbn;
        [by rewrite app_nil_r |].
      destruct (get_iscsi_portal _ _); cbn; by rewrite app_nil_r.
    + destruct (get_iscsi_portal _ _); cbn; by rewrite app_nil_r.
  - fold (denial_message volume).
    destruct (h (message_api.create (denial_message volume)) (final check))
      as [[e | []] w2]; cbn; eauto.
Qed.

(** X16. [initialize_connection] creates a message exactly when the
    admission check returned [False]: a check that allows, and a check
    that itself raises, send nothing; and the only message ever sent is
    the denial for this volume. *)
Theorem initialize_connection_notifies_iff_denied
    (self : FreeNASISCSIDriver) (volume : Volume) (connector : dict) (w : W) :
  let out := run h (initialize_connection self volume connector) w in
  (existsb is_notification (trace out) = true
   <-> returned (run h (check_connection self) w) = inr false)
  /\ (forall m, MessageApi (message_api.create m) ∈ trace out ->
                m = denial_message volume).
Proof.
  intros out. subst out.
  pose proof (initialize_connection_after_check self volume connector w)
    as Hafter.
  pose proof (reads_hold_no_notification _ (check_connection_reads self w))
    as Hquiet.
  cbn zeta in Hafter.
  assert (forall m, MessageApi (message_api.create m)
                    ∉ trace (run h (check_connection self) w)) as Hnone.
  { intros m Hin. apply not_true_iff_false in Hquiet. apply Hquiet.
    apply existsb_exists. exists (MessageApi (message_api.create m)).
    split; [by apply list_elem_of_In | reflexivity]. }
  destruct (returned (run h (check_connection self) w)) as [e | [|]].
  - rewrite Hafter. cbn [trace]. rewrite Hquiet. split; [done |].
    intros m Hin. by apply Hnone in Hin.
  - destruct Hafter as [-> _]. rewrite Hquiet. split; [done |].
    intros m Hin. by apply Hnone in Hin.
  - destruct Hafter as [-> _]. rewrite existsb_app, Hquiet.
    split; [done |]. intros m Hin.
    apply elem_of_app in Hin as [Hin | Hin]; [by apply Hnone in Hin |].
    apply list_elem_of_singleton in Hin. by injection Hin.
Qed.

(** X17. An exception raised inside the admission check, such as the
    [ValueError] of a tunable or a failure of the backend, leaves
    [initialize_connection] as it is: no message is created, no name is
    resolved, and nothing further is called. *)
Theorem initialize_connection_check_failure
    (self : FreeNASISCSIDriver) (volume : Volume) (connector : dict)
    (w : W) (e : exn) :
  returned (run h (check_connection self) w) = inl e ->
  run h (initialize_connection self volume connector) w
  = Outcome (trace (run h (check_connection self) w)) (inl e)
            (final (run h (check_connection self) w)).
Proof.
  intros Hcheck.
  pose proof (initialize_connection_after_check self volume connector w)
    as Hafter.
  cbn zeta in Hafter. by rewrite Hcheck in Hafter.
Qed.

(** X18. [initialize_connection] changes nothing on the backend: on every
    backend each of its calls is one of the reads of the admission check
    or the creation of the denial message. *)
Theorem initialize_connection_only_reads_and_notifies
    (self : FreeNASISCSIDriver) (volume : Volume) (connector : dict) (w : W) :
  forallb (fun o => is_read_call o || is_notification o)
    (trace (run h (initialize_connection self volume connector) w)) = true.
Proof.
  pose proof (initialize_connection_after_check self volume connector w)
    as Hafter.
  pose proof (check_connection_reads self w) as Hreads.
  assert (forallb (fun o => is_read_call o || is_notification o)
            (trace (run h (check_connection self) w)) = true) as Hweak.
  { revert Hreads. generalize (trace (run h (check_connection self) w)).
    induction l as [| o l IH]; cbn; [done |].
    intros [-> Hl]%andb_true_iff. cbn. auto. }
  cbn zeta in Hafter.
  destruct (returned (run h (check_connection self) w)) as [e | [|]].
  - by rewrite Hafter.
  - by destruct Hafter as [-> _].
  - destruct Hafter as [-> _]. by rewrite forallb_app, Hweak.
Qed.

(** ** Further properties of the clone operations *)

(** X19. A failed promotion is not rolled back: when the clone and its
    target were created and the promotion raises, the exception is passed
    on and the call ends there, with the new volume and its target in
    place. *)
Theorem create_volume_from_snapshot_promotion_failure
    (self : FreeNASISCSIDriver) (volume : Volume) (snapshot : Snapshot)
    (existing_vol freenas_snapshot freenas_volume : freenas_name)
    (display_name : string) (w w1 w2 w3 w4 : W) (e : exn) :
  generate_freenas_volume_name (snap_volume_name snapshot) (iqn_prefix self)
    = inr existing_vol ->
  generate_freenas_snapshot_name (snap_name snapshot) (iqn_prefix self)
    = inr freenas_snapshot ->
  generate_freenas_volume_name (vol_name volume) (iqn_prefix self)
    = inr freenas_volume ->
  h (common.create_volume_from_snapshot (fn_name freenas_volume)
       (fn_name freenas_snapshot) (fn_name existing_vol)) w = (inr tt, w1) ->
  h (common.create_iscsitarget (fn_target freenas_volume)
       (fn_name freenas_volume)) w1 = (inr tt, w2) ->
  image_volume_cache_enabled (self_configuration self) = true ->
  h (common.is_service_project (vol_project_id volume)) w2 = (inr true, w3) ->
  vol_display_name volume = Some display_name ->
  re_match image_cache_pattern display_name = true ->
  h (common.promote_volume (fn_name freenas_volume)) w3 = (inl e, w4) ->
  run h (create_volume_from_snapshot self volume snapshot) w
  = Outcome
      [Common (common.create_volume_from_snapshot (fn_name freenas_volume)
                 (fn_name freenas_snapshot) (fn_name existing_vol));
       Common (common.create_iscsitarget (fn_target freenas_volume)
                 (fn_name freenas_volume));
       Common (common.is_service_project (vol_project_id volume));
       Common (common.promote_volume (fn_name freenas_volume))]
      (inl e) w4.
Proof.
  intros Hex Hsnap Hvol Hclone Htarget Hcache Hservice Hname Hmatch Hpromote.
  unfold create_volume_from_snapshot, match_display_name.
  rewrite Hex, Hsnap, Hvol. cbn. rewrite Hclone. cbn. rewrite Htarget. cbn.
  rewrite Hcache. cbn. rewrite Hservice. cbn. rewrite Hname. cbn.
  rewrite Hmatch. cbn. by rewrite Hpromote.
Qed.

(** X20. A volume of the service project that has no display name makes
    [create_volume_from_snapshot] raise [TypeError] from [re.match] when
    the image cache is enabled, after the clone and its target were
    created. *)
Theorem create_volume_from_snapshot_without_display_name
    (self : FreeNASISCSIDriver) (volume : Volume) (snapshot : Snapshot)
    (existing_vol freenas_snapshot freenas_volume : freenas_name)
    (w w1 w2 w3 : W) :
  generate_freenas_volume_name (snap_volume_name snapshot) (iqn_prefix self)
    = inr existing_vol ->
  generate_freenas_snapshot_name (snap_name snapshot) (iqn_prefix self)
    = inr freenas_snapshot ->
  generate_freenas_volume_name (vol_name volume) (iqn_prefix self)
    = inr freenas_volume ->
  h (common.create_volume_from_snapshot (fn_name freenas_volume)
       (fn_name freenas_snapshot) (fn_name existing_vol)) w = (inr tt, w1) ->
  h (common.create_iscsitarget (fn_target freenas_volume)
       (fn_name freenas_volume)) w1 = (inr tt, w2) ->
  image_volume_cache_enabled (self_configuration self) = true ->
  h (common.is_service_project (vol_project_id volume)) w2 = (inr true, w3) ->
  vol_display_name volume = None ->
  run h (create_volume_from_snapshot self volume snapshot) w
  = Outcome
      [Common (common.create_volume_from_snapshot (fn_name freenas_volume)
                 (fn_name freenas_snapshot) (fn_name existing_vol));
       Common (common.create_iscsitarget (fn_target freenas_volume)
                 (fn_name freenas_volume));
       Common (common.is_service_project (vol_project_id volume))]
      (inl (TypeError "expected string or bytes-like object")) w3.
Proof.
  intros Hex Hsnap Hvol Hclone Htarget Hcache Hservice Hname.
  unfold create_volume_from_snapshot, match_display_name.
  rewrite Hex, Hsnap, Hvol. cbn. rewrite Hclone. cbn. rewrite Htarget. cbn.
  rewrite Hcache. cbn. rewrite Hservice. cbn. by rewrite Hname.
Qed.

(** X21. The tests before a promotion are taken in order and stop at the
    first that fails: with the image cache disabled the backend is not
    asked about the project, and for a project that is not the service
    project the display name is not looked at, so that a volume without
    display name is created without error. *)
Theorem create_volume_from_snapshot_short_circuit
    (self : FreeNASISCSIDriver) (volume : Volume) (snapshot : Snapshot)
    (existing_vol freenas_snapshot freenas_volume : freenas_name)
    (w w1 w2 : W) :
  generate_freenas_volume_name (snap_volume_name snapshot) (iqn_prefix self)
    = inr existing_vol ->
  generate_freenas_snapshot_name (snap_name snapshot) (iqn_prefix self)
    = inr freenas_snapshot ->
  generate_freenas_volume_name (vol_name volume) (iqn_prefix self)
    = inr freenas_volume ->
  h (common.create_volume_from_snapshot (fn_name freenas_volume)
       (fn_name freenas_snapshot) (fn_name existing_vol)) w = (inr tt, w1) ->
  h (common.create_iscsitarget (fn_target freenas_volume)
       (fn_name freenas_volume)) w1 = (inr tt, w2) ->
  let clone := common.create_volume_from_snapshot (fn_name freenas_volume)
                 (fn_name freenas_snapshot) (fn_name existing_vol) in
  let target := common.create_iscsitarget (fn_target freenas_volume)
                  (fn_name freenas_volume) in
  let query := common.is_service_project (vol_project_id volume) in
  let out := run h (create_volume_from_snapshot self volume snapshot) w in
  (image_volume_cache_enabled (self_configuration self) = false ->
   out = Outcome [Common clone; Common target] (inr tt) w2)
  /\ (forall w3,
        image_volume_cache_enabled (self_configuration self) = true ->
        h query w2 = (inr false, w3) ->
        out = Outcome [Common clone; Common target; Common query] (inr tt) w3).
Proof.
  intros Hex Hsnap Hvol Hclone Htarget clone target query out.
  subst clone target query out.
  unfold create_volume_from_snapshot.
  rewrite Hex, Hsnap, Hvol. cbn. rewrite Hclone. cbn. rewrite Htarget. cbn.
  split.
  - by intros ->.
  - intros w3 -> Hservice. cbn. by rewrite Hservice.
Qed.

(** X22. When the backend refuses the clone, [create_volume_from_snapshot]
    passes the exception on without creating a target; when it refuses the
    target, the exception is passed on and the clone stays. *)
Theorem create_volume_from_snapshot_failures
    (self : FreeNASISCSIDriver) (volume : Volume) (snapshot : Snapshot)
    (existing_vol freenas_snapshot freenas_volume : freenas_name)
    (w : W) (e : exn) :
  generate_freenas_volume_name (snap_volume_name snapshot) (iqn_prefix self)
    = inr existing_vol ->
  generate_freenas_snapshot_name (snap_name snapshot) (iqn_prefix self)
    = inr freenas_snapshot ->
  generate_freenas_volume_name (vol_name volume) (iqn_prefix self)
    = inr freenas_volume ->
  let clone := common.create_volume_from_snapshot (fn_name freenas_volume)
                 (fn_name freenas_snapshot) (fn_name existing_vol) in
  let target := common.create_iscsitarget (fn_target freenas_volume)
                  (fn_name freenas_volume) in
  let out := run h (create_volume_from_snapshot self volume snapshot) w in
  (forall w1, h clone w = (inl e, w1) -> out = Outcome [Common clone] (inl e) w1)
  /\ (forall w1 w2,
        h clone w = (inr tt, w1) -> h target w1 = (inl e, w2) ->
        out = Outcome [Common clone; Common target] (inl e) w2).
Proof.
  intros Hex Hsnap Hvol clone target out. subst clone target out.
  unfold create_volume_from_snapshot.
  rewrite Hex, Hsnap, Hvol. cbn. split.
  - intros w1 Hclone. by rewrite Hclone.
  - intros w1 w2 Hclone Htarget. rewrite Hclone. cbn. by rewrite Htarget.
Qed.

(** X23. A refresh followed by a plain read: the second call returns the
    snapshot that the refresh stored, and the backend is queried once. *)
Theorem get_volume_stats_refresh_then_read
    (self : FreeNASISCSIDriver) (stats : dict) (w w1 : W) :
  h common.update_volume_stats w = (inr stats, w1) ->
  run h (get_volume_stats self true ≫=
           fun refreshed => get_volume_stats (snd refreshed) false) w
  = Outcome [Common common.update_volume_stats]
      (inr (stats, {| self_configuration := self_configuration self;
                      self_stats := stats |})) w1.
Proof.
  intros Hstats. unfold get_volume_stats. cbn. by rewrite Hstats.
Qed.

(** X24. Whatever [get_volume_stats] returns is what the driver holds
    afterwards, and the configuration of the driver is never touched;
    at most one call is made, the stats query. *)
Theorem get_volume_stats_returns_cache
    (self self' : FreeNASISCSIDriver) (refresh : bool) (stats : dict) (w : W) :
  let out := run h (get_volume_stats self refresh) w in
  returned out = inr (stats, self') ->
  self_stats self' = stats
  /\ self_configuration self' = self_configuration self
  /\ trace out = (if refresh then [Common common.update_volume_stats] else []).
Proof.
  intros out. subst out. unfold get_volume_stats. destruct refresh; cbn.
  - destruct (h common.update_volume_stats w) as [[e | fresh] w1]; cbn;
      [discriminate |].
    by intros [= <- <-].
  - by intros [= <- <-].
Qed.

(** X25. When the backend refuses the transient snapshot,
    [create_cloned_volume] passes the exception on and attempts no clone;
    when it refuses the clone, the exception is passed on and the
    transient snapshot, already created, is left behind. *)
Theorem create_cloned_volume_failures
    (self : FreeNASISCSIDriver) (volume src_vref : Volume)
    (freenas_snapshot source_volume freenas_volume : freenas_name)
    (w : W) (e : exn) :
  generate_freenas_snapshot_name ("name-" ++ vol_id volume) (iqn_prefix self)
    = inr freenas_snapshot ->
  generate_freenas_volume_name (vol_name src_vref) (iqn_prefix self)
    = inr source_volume ->
  generate_freenas_volume_name (vol_name volume) (iqn_prefix self)
    = inr freenas_volume ->
  let snap := common.create_snapshot (fn_name freenas_snapshot)
                (fn_name source_volume) in
  let clone := common.create_volume_from_snapshot (fn_name freenas_volume)
                 (fn_name freenas_snapshot) (fn_name source_volume) in
  let out := run h (create_cloned_volume self volume src_vref) w in
  (forall w1, h snap w = (inl e, w1) -> out = Outcome [Common snap] (inl e) w1)
  /\ (forall w1 w2,
        h snap w = (inr tt, w1) -> h clone w1 = (inl e, w2) ->
        out = Outcome [Common snap; Common clone] (inl e) w2).
Proof.
  intros Hsnap Hsrc Hvol snap clone out. subst snap clone out.
  unfold create_cloned_volume, create_snapshot, create_volume_from_snapshot,
    temp_snapshot.
  cbn [snap_name snap_volume_name]. rewrite Hsnap, Hsrc, Hvol. cbn. split.
  - intros w1 Hcall. by rewrite Hcall.
  - intros w1 w2 Hcall Hclone. rewrite Hcall. cbn. by rewrite Hclone.
Qed.

Lemma create_volume_from_snapshot_no_delete
    (self : FreeNASISCSIDriver) (volume : Volume) (snapshot : Snapshot) (w : W) :
  existsb is_delete_call
    (trace (run h (create_volume_from_snapshot self volume snapshot) w)) = false.
Proof.
  unfold create_volume_from_snapshot, match_display_name.
  destruct (generate_freenas_volume_name (snap_volume_name snapshot) _)
    as [e | ex]; cbn; [reflexivity |].
  destruct (generate_freenas_snapshot_name _ _) as [e | fs]; cbn;
    [reflexivity |].
  destruct (generate_freenas_volume_name (vol_name volume) _)
    as [e | fv]; cbn; [reflexivity |].
  destruct (h _ w) as [[e | []] w1]; cbn; [reflexivity |].
  destruct (h _ w1) as [[e | []] w2]; cbn; [reflexivity |].
  destruct (image_volume_cache_enabled _); cbn; [| reflexivity].
  destruct (h _ w2) as [[e | [|]] w3]; cbn; [reflexivity | | reflexivity].
  destruct (vol_display_name volume) as [display_name |]; cbn; [| reflexivity].
  destruct (re_match image_cache_pattern display_name); cbn; [| reflexivity].
  destruct (h _ w3) as [[e | []] w4]; reflexivity.
Qed.

(** X26. The operations that create never remove: on every backend, and
    whichever call fails, [create_volume], [create_snapshot],
    [create_volume_from_snapshot] and [create_cloned_volume] issue no
    deletion of a storage object, of a target or of a snapshot. *)
Theorem creation_never_deletes
    (self : FreeNASISCSIDriver) (volume src_vref : Volume)
    (snapshot : Snapshot) (w : W) :
  existsb is_delete_call (trace (run h (create_volume self volume) w)) = false
  /\ existsb is_delete_call
       (trace (run h (create_snapshot self snapshot) w)) = false
  /\ existsb is_delete_call
       (trace (run h (create_volume_from_snapshot self volume snapshot) w))
     = false
  /\ existsb is_delete_call
       (trace (run h (create_cloned_volume self volume src_vref) w)) = false.
Proof.
  assert (forall s w', existsb is_delete_call
                         (trace (run h (create_snapshot self s) w')) = false)
    as Hsnapshot.
  { intros s w'. unfold create_snapshot.
    destruct (generate_freenas_snapshot_name _ _) as [e | fs]; cbn;
      [reflexivity |].
    destruct (generate_freenas_volume_name _ _) as [e | fv]; cbn;
      [reflexivity |].
    destruct (h _ w') as [[e | []] w1]; reflexivity. }
  split; [| split; [apply Hsnapshot | split]].
  - unfold create_volume.
    destruct (generate_freenas_volume_name _ _) as [e | fv]; cbn;
      [reflexivity |].
    destruct (h _ w) as [[e | []] w1]; cbn; [reflexivity |].
    destruct (h _ w1) as [[e | []] w2]; reflexivity.
  - apply create_volume_from_snapshot_no_delete.
  - unfold create_cloned_volume. rewrite run_bind.
    pose proof (Hsnapshot (temp_snapshot volume src_vref) w) as Hfirst.
    destruct (returned (run h (create_snapshot self _) w)); cbn [trace];
      [exact Hfirst |].
    rewrite existsb_app, Hfirst. apply create_volume_from_snapshot_no_delete.
Qed.

End Driver.

(** ** The driver on concrete backends *)

(** With [max_luns = 10] and [max_ports = 5] on TrueNAS 12.0 and the
    sections loaded, the check denies at five attached volumes. *)
Lemma check_connection_admission_witness :
  effective_limit (Sample.sc_tunable (Sample.truenas "TrueNAS-12.0-U8.1" 5)) = 5
  /\ returned (run (Sample.scripted (Sample.truenas "TrueNAS-12.0-U8.1" 5))
                 (check_connection Sample.parse_truenas_version Sample.driver) [])
     = inr false.
Proof.
  split; [vm_compute; reflexivity |].
  refine (proj2 (proj1 (proj1 (check_connection_admission
    Sample.parse_truenas_version
    (Sample.scripted (Sample.truenas "TrueNAS-12.0-U8.1" 5))
    Sample.driver "TrueNAS-12.0-U8.1"
    [PyStr "TrueNAS"; PyStr "12.0"; PyStr "U8.1"] (PyStr "12.0")
    (Sample.sc_tunable (Sample.truenas "TrueNAS-12.0-U8.1" 5))
    (Sample.sc_tunable (Sample.truenas "TrueNAS-12.0-U8.1" 5))
    ["DEFAULT"; "ixsystems-iscsi"]
    [] _ _ _ _
    eq_refl eq_refl eq_refl (or_introl eq_refl) eq_refl eq_refl _ eq_refl)
    _
    (Sample.sc_vols (Sample.truenas "TrueNAS-12.0-U8.1" 5)) _ eq_refl)) _).
  - repeat constructor; intros _; vm_compute; eauto.
  - discriminate.
  - vm_compute. discriminate.
Defined.

(** With four attached volumes the same backend allows the attachment. *)
Example check_connection_allows_below_limit :
  returned (run (Sample.scripted (Sample.truenas "TrueNAS-12.0-U8.1" 4))
              (check_connection Sample.parse_truenas_version Sample.driver) [])
  = inr true.
Proof. vm_compute. reflexivity. Qed.

(** TrueNAS 12.0 with [max_luns = 10], [max_ports = 5] and five attached
    volumes, seen while no configuration section is loaded: the limit is
    reached and the check allows, without listing the volumes. *)
Lemma check_connection_section_gate_counterexample :
  let backend := Sample.no_sections 5 in
  let out := run (Sample.scripted backend)
               (check_connection Sample.parse_truenas_version Sample.driver) [] in
  effective_limit (Sample.sc_tunable backend) = 5
  /\ attached_truenas_vol_count (Sample.sc_vols backend) = 5
  /\ returned out = inr true
  /\ trace out = [Common common.system_version; Common common.tunable;
                  Common common.tunable;
                  CinderApi cinderapi.list_all_sections].
Proof. vm_compute. repeat split. Qed.

(** An enabled tunable whose value is numeric for [isnumeric] and is not a
    decimal literal: [int] raises and the check returns nothing. *)
Example check_connection_superscript_tunable :
  returned (run (Sample.scripted Sample.superscript_tunable)
              (check_connection Sample.parse_truenas_version Sample.driver) [])
  = inl (ValueError (String (ascii_of_N 178) EmptyString)).
Proof. vm_compute. reflexivity. Qed.

Lemma check_connection_other_versions_witness :
  run (Sample.scripted (Sample.truenas "FreeNAS-11.3-U5" 5))
      (check_connection Sample.parse_truenas_version Sample.driver) []
  = Outcome [Common common.system_version] (inr true)
            [Common common.system_version].
Proof.
  apply (check_connection_other_versions Sample.parse_truenas_version
           (Sample.scripted (Sample.truenas "FreeNAS-11.3-U5" 5))
           Sample.driver "FreeNAS-11.3-U5"
           [PyStr "FreeNAS"; PyStr "11.3"; PyStr "U5"] (PyStr "11.3"));
    (reflexivity || discriminate).
Defined.

Lemma create_volume_no_rollback_witness :
  let out := run (Sample.scripted Sample.target_fails)
               (create_volume Sample.generate_freenas_volume_name
                  Sample.driver Sample.volume) [] in
  trace out =
    [Common (common.create_volume "volume-volume-7d1c" 10);
     Common (common.create_iscsitarget "target-volume-7d1c" "volume-volume-7d1c")]
  /\ returned out = inl (FreeNASApiError "target already exists")
  /\ final out =
       [Common (common.create_volume "volume-volume-7d1c" 10);
        Common (common.create_iscsitarget "target-volume-7d1c" "volume-volume-7d1c")]
  /\ (forall name, Common (common.delete_volume name) ∉ trace out).
Proof.
  apply (create_volume_no_rollback Sample.generate_freenas_volume_name
           (Sample.scripted Sample.target_fails) Sample.driver Sample.volume
           {| fn_name := "volume-volume-7d1c";
              fn_target := "target-volume-7d1c";
              fn_iqn := "iqn.2005-10.org.freenas.ctl:target-volume-7d1c" |}
           [] [Common (common.create_volume "volume-volume-7d1c" 10)]);
    reflexivity.
Defined.

Lemma extend_volume_calls_backend_iff_size_differs_witness :
  run (Sample.scripted (Sample.truenas "TrueNAS-12.0-U8.1" 0))
      (extend_volume Sample.generate_freenas_volume_name
         Sample.driver Sample.volume 10) []
  = Outcome [] (inr tt) []
  /\ trace (run (Sample.scripted (Sample.truenas "TrueNAS-12.0-U8.1" 0))
              (extend_volume Sample.generate_freenas_volume_name
                 Sample.driver Sample.volume 20) [])
     = [Common (common.extend_volume "volume-volume-7d1c" 20)].
Proof.
  split.
  - pose proof (extend_volume_calls_backend_iff_size_differs
                  Sample.generate_freenas_volume_name
                  (Sample.scripted (Sample.truenas "TrueNAS-12.0-U8.1" 0))
                  Sample.driver Sample.volume 10 []) as [Hsame _].
    destruct (Hsame eq_refl) as [Htrace Hfinal]. reflexivity.
  - pose proof (extend_volume_calls_backend_iff_size_differs
                  Sample.generate_freenas_volume_name
                  (Sample.scripted (Sample.truenas "TrueNAS-12.0-U8.1" 0))
                  Sample.driver Sample.volume 20 []) as (_ & Hdiffer & _).
    rewrite (Hdiffer
               {| fn_name := "volume-volume-7d1c";
                  fn_target := "target-volume-7d1c";
                  fn_iqn := "iqn.2005-10.org.freenas.ctl:target-volume-7d1c" |});
      [reflexivity | discriminate | reflexivity].
Defined.

Lemma get_volume_stats_cache_witness :
  let h := Sample.scripted (Sample.truenas "TrueNAS-12.0-U8.1" 0) in
  let fresh := Sample.sc_stats (Sample.truenas "TrueNAS-12.0-U8.1" 0) in
  run h (get_volume_stats Sample.driver true) []
  = Outcome [Common common.update_volume_stats]
      (inr (fresh, {| self_configuration := self_configuration Sample.driver;
                      self_stats := fresh |}))
      [Common common.update_volume_stats]
  /\ run (Sample.scripted Sample.stats_fail)
       (get_volume_stats Sample.driver true) []
     = Outcome [Common common.update_volume_stats]
         (inl (FreeNASApiError "connection refused"))
         [Common common.update_volume_stats].
Proof.
  split.
  - apply (get_volume_stats_cache
             (Sample.scripted (Sample.truenas "TrueNAS-12.0-U8.1" 0))
             Sample.driver Sample.conf []).
    reflexivity.
  - apply (get_volume_stats_cache (Sample.scripted Sample.stats_fail)
             Sample.driver Sample.conf []).
    reflexivity.
Defined.

Lemma initialize_connection_denied_witness :
  let h := Sample.scripted (Sample.truenas "TrueNAS-12.0-U8.1" 5) in
  let out := run h (initialize_connection Sample.generate_freenas_volume_name
                      Sample.generate_freenas_snapshot_name
                      Sample.get_iscsi_portal Sample.parse_truenas_version
                      Sample.driver Sample.volume Sample.connector) [] in
  trace out =
    [Common common.system_version; Common common.tunable; Common common.tunable;
     CinderApi cinderapi.list_all_sections; CinderApi cinderapi.volume_get_all;
     MessageApi (message_api.create
       {| msg_project_id := "service";
          msg_action := ATTACH_VOLUME;
          msg_resource_uuid := "7d1c";
          msg_exception := FreeNASApiError limit_reached_message;
          msg_detail := ATTACH_ERROR |})]
  /\ returned out = inl (FreeNASApiError limit_reached_message).
Proof.
  intros h out.
  destruct (initialize_connection_denied Sample.generate_freenas_volume_name
              Sample.generate_freenas_snapshot_name Sample.get_iscsi_portal
              Sample.parse_truenas_version h Sample.driver Sample.volume
              Sample.connector []
              [Common common.system_version; Common common.tunable;
               Common common.tunable; CinderApi cinderapi.list_all_sections;
               CinderApi cinderapi.volume_get_all]
              [Common common.system_version; Common common.tunable;
               Common common.tunable; CinderApi cinderapi.list_all_sections;
               CinderApi cinderapi.volume_get_all])
    as (Htrace & _ & _ & Hraised & _).
  - vm_compute. reflexivity.
  - split; [exact Htrace | apply Hraised; reflexivity].
Defined.

Lemma initialize_connection_properties_witness :
  let info :=
    {| driver_volume_type := "iscsi";
       data := {| target_discovered := false;
                  target_portal := "nas.example.org:3260";
                  target_iqn := "iqn.2005-10.org.freenas.ctl:target-volume-7d1c";
                  volume_id := "7d1c" |} |} in
  returned (run (Sample.scripted (Sample.truenas "TrueNAS-12.0-U8.1" 4))
              (initialize_connection Sample.generate_freenas_volume_name
                 Sample.generate_freenas_snapshot_name
                 Sample.get_iscsi_portal Sample.parse_truenas_version
                 Sample.driver Sample.volume Sample.connector) [])
    = inr info
  /\ Sample.get_iscsi_portal "nas.example.org" 3260
     = inr (target_portal (data info))
  /\ volume_id (data info) = vol_id Sample.volume.
Proof.
  intros info.
  assert (returned (run (Sample.scripted (Sample.truenas "TrueNAS-12.0-U8.1" 4))
              (initialize_connection Sample.generate_freenas_volume_name
                 Sample.generate_freenas_snapshot_name
                 Sample.get_iscsi_portal Sample.parse_truenas_version
                 Sample.driver Sample.volume Sample.connector) [])
          = inr info) as Hreturned by (vm_compute; reflexivity).
  split; [exact Hreturned |].
  destruct (initialize_connection_properties _ _ _ _ _ _ _ _ _ _ Hreturned)
    as (_ & _ & Hid & Hportal & _).
  split; [exact Hportal | exact Hid].
Defined.

Lemma initialize_connection_resolution_witness :
  let h := Sample.scripted (Sample.truenas "TrueNAS-12.0-U8.1" 4) in
  returned (run h (initialize_connection Sample.unresolved_name
                     Sample.generate_freenas_snapshot_name
                     Sample.get_iscsi_portal Sample.parse_truenas_version
                     Sample.driver Sample.volume Sample.connector) [])
  = inr (connection_properties Sample.volume "nas.example.org:3260"
           {| fn_name := "snap-volume-7d1c";
              fn_target := "target-volume-7d1c";
              fn_iqn := "iqn.2005-10.org.freenas.ctl:target-volume-7d1c" |}).
Proof.
  intros h.
  destruct (initialize_connection_resolution Sample.unresolved_name
              Sample.generate_freenas_snapshot_name Sample.get_iscsi_portal
              Sample.parse_truenas_version h Sample.driver Sample.volume
              Sample.connector []
              [Common common.system_version; Common common.tunable;
               Common common.tunable; CinderApi cinderapi.list_all_sections;
               CinderApi cinderapi.volume_get_all]
              [Common common.system_version; Common common.tunable;
               Common common.tunable; CinderApi cinderapi.list_all_sections;
               CinderApi cinderapi.volume_get_all])
    as (_ & _ & _ & _ & Hsnapshot & _).
  - vm_compute. reflexivity.
  - exact (Hsnapshot _ _ _ eq_refl eq_refl eq_refl eq_refl).
Defined.

(** Neither the volume name nor the snapshot name resolves to a backend
    name, and [initialize_connection] returns connection properties. *)
Lemma initialize_connection_unresolved_counterexample :
  let h := Sample.scripted (Sample.truenas "TrueNAS-12.0-U8.1" 4) in
  let out := run h (initialize_connection Sample.unresolved_name
                      Sample.unresolved_name
                      Sample.get_iscsi_portal Sample.parse_truenas_version
                      Sample.driver Sample.volume Sample.connector) [] in
  Sample.unresolved_name (vol_name Sample.volume) (iqn_prefix Sample.driver)
    = inr {| fn_name := ""; fn_target := "";
             fn_iqn := "iqn.2005-10.org.freenas.ctl:" |}
  /\ returned out =
       inr {| driver_volume_type := "iscsi";
              data := {| target_discovered := false;
                         target_portal := "nas.example.org:3260";
                         target_iqn := "iqn.2005-10.org.freenas.ctl:";
                         volume_id := "7d1c" |} |}.
Proof. vm_compute. split; reflexivity. Qed.

Lemma create_volume_from_snapshot_promotion_witness :
  let h := Sample.scripted (Sample.truenas "TrueNAS-12.0-U8.1" 0) in
  Common (common.promote_volume "volume-volume-7d1c")
  ∈ trace (run h (create_volume_from_snapshot
                    Sample.generate_freenas_volume_name
                    Sample.generate_freenas_snapshot_name
                    Sample.driver Sample.volume Sample.snapshot) []).
Proof.
  intros h.
  destruct (create_volume_from_snapshot_promotion
              Sample.generate_freenas_volume_name
              Sample.generate_freenas_snapshot_name h
              Sample.driver Sample.volume Sample.snapshot []) as [_ Hiff].
  apply (Hiff
           {| fn_name := "volume-volume-a001"; fn_target := "target-volume-a001";
              fn_iqn := "iqn.2005-10.org.freenas.ctl:target-volume-a001" |}
           {| fn_name := "snap-snapshot-55aa"; fn_target := "target-snapshot-55aa";
              fn_iqn := "iqn.2005-10.org.freenas.ctl:target-snapshot-55aa" |}
           {| fn_name := "volume-volume-7d1c"; fn_target := "target-volume-7d1c";
              fn_iqn := "iqn.2005-10.org.freenas.ctl:target-volume-7d1c" |}
           _ _ eq_refl eq_refl eq_refl eq_refl eq_refl).
  split; [reflexivity |]. split; [reflexivity |].
  eexists. split; [reflexivity | vm_compute; reflexivity].
Defined.

(** The project is the service project and the display name matches the
    image-cache pattern, but [image_volume_cache_enabled] is not set: the
    call succeeds and the new volume is not promoted. *)
Lemma create_volume_from_snapshot_cache_disabled_counterexample :
  let h := Sample.scripted (Sample.truenas "TrueNAS-12.0-U8.1" 0) in
  let out := run h (create_volume_from_snapshot
                      Sample.generate_freenas_volume_name
                      Sample.generate_freenas_snapshot_name
                      Sample.driver_no_cache Sample.volume Sample.snapshot) [] in
  Sample.answer (Sample.truenas "TrueNAS-12.0-U8.1" 0)
    (common.is_service_project (vol_project_id Sample.volume)) = true
  /\ (re_match image_cache_pattern <$> vol_display_name Sample.volume) = Some true
  /\ returned out = inr tt
  /\ trace out =
       [Common (common.create_volume_from_snapshot "volume-volume-7d1c"
                  "snap-snapshot-55aa" "volume-volume-a001");
        Common (common.create_iscsitarget "target-volume-7d1c"
                  "volume-volume-7d1c")].
Proof. vm_compute. repeat split. Qed.

Lemma create_cloned_volume_snapshot_then_clone_witness :
  let h := Sample.scripted (Sample.truenas "TrueNAS-12.0-U8.1" 0) in
  let out := run h (create_cloned_volume Sample.generate_freenas_volume_name
                      Sample.generate_freenas_snapshot_name
                      Sample.driver Sample.volume Sample.source_volume) [] in
  (exists rest,
     trace out =
       Common (common.create_snapshot "snap-name-7d1c" "volume-volume-a001")
       :: Common (common.create_volume_from_snapshot "volume-volume-7d1c"
                    "snap-name-7d1c" "volume-volume-a001")
       :: rest)
  /\ count_ops is_create_snapshot (trace out) = 1%nat
  /\ count_ops is_clone_from_snapshot (trace out) = 1%nat.
Proof.
  intros h out.
  destruct (create_cloned_volume_snapshot_then_clone
              Sample.generate_freenas_volume_name
              Sample.generate_freenas_snapshot_name h
              Sample.driver Sample.volume Sample.source_volume [])
    as (_ & _ & Hrun).
  exact (Hrun
           {| fn_name := "snap-name-7d1c"; fn_target := "target-name-7d1c";
              fn_iqn := "iqn.2005-10.org.freenas.ctl:target-name-7d1c" |}
           {| fn_name := "volume-volume-a001"; fn_target := "target-volume-a001";
              fn_iqn := "iqn.2005-10.org.freenas.ctl:target-volume-a001" |}
           {| fn_name := "volume-volume-7d1c"; fn_target := "target-volume-7d1c";
              fn_iqn := "iqn.2005-10.org.freenas.ctl:target-volume-7d1c" |}
           _ _ eq_refl eq_refl eq_refl eq_refl eq_refl).
Defined.


(** ** The further properties on concrete backends *)

Lemma delete_volume_target_before_storage_witness :
  run (Sample.scripted (Sample.failing is_target_deletion))
      (delete_volume Sample.generate_freenas_volume_name
         Sample.driver Sample.volume) []
  = Outcome [Common (common.delete_iscsitarget "target-volume-7d1c")]
      (inl (FreeNASApiError "backend error"))
      [Common (common.delete_iscsitarget "target-volume-7d1c")].
Proof.
  rewrite (delete_volume_target_before_storage
             Sample.generate_freenas_volume_name
             (Sample.scripted (Sample.failing is_target_deletion))
             Sample.driver Sample.volume
             {| fn_name := "volume-volume-7d1c";
                fn_target := "target-volume-7d1c";
                fn_iqn := "iqn.2005-10.org.freenas.ctl:target-volume-7d1c" |} []);
    [reflexivity | reflexivity | discriminate | discriminate].
Defined.

Lemma delete_volume_only_removes_resolved_names_witness :
  exists freenas_volume,
    Sample.generate_freenas_volume_name (vol_name Sample.volume)
      (iqn_prefix Sample.driver) = inr freenas_volume
    /\ ((Common (common.delete_volume "volume-volume-7d1c")
         = Common (common.delete_iscsitarget (fn_target freenas_volume))
         /\ fn_target freenas_volume <> "")
        \/ (Common (common.delete_volume "volume-volume-7d1c")
            = Common (common.delete_volume (fn_name freenas_volume))
            /\ fn_name freenas_volume <> "")).
Proof.
  apply (delete_volume_only_removes_resolved_names
           Sample.generate_freenas_volume_name
           (Sample.scripted (Sample.truenas "TrueNAS-12.0-U8.1" 0))
           Sample.driver Sample.volume []).
  vm_compute. apply list_elem_of_further, list_elem_of_here.
Defined.

Lemma create_then_delete_volume_witness :
  let h := Sample.scripted (Sample.truenas "TrueNAS-12.0-U8.1" 0) in
  trace (run h (create_volume Sample.generate_freenas_volume_name
                  Sample.driver Sample.volume ≫=
                fun _ => delete_volume Sample.generate_freenas_volume_name
                           Sample.driver Sample.volume) [])
  = [Common (common.create_volume "volume-volume-7d1c" 10);
     Common (common.create_iscsitarget "target-volume-7d1c" "volume-volume-7d1c");
     Common (common.delete_iscsitarget "target-volume-7d1c");
     Common (common.delete_volume "volume-volume-7d1c")].
Proof.
  intros h.
  erewrite (create_then_delete_volume Sample.generate_freenas_volume_name h
              Sample.driver Sample.volume
              {| fn_name := "volume-volume-7d1c";
                 fn_target := "target-volume-7d1c";
                 fn_iqn := "iqn.2005-10.org.freenas.ctl:target-volume-7d1c" |}
              []);
    [reflexivity | reflexivity | discriminate | discriminate | reflexivity..].
Defined.

Lemma create_volume_storage_failure_witness :
  run (Sample.scripted (Sample.failing is_storage_creation))
      (create_volume Sample.generate_freenas_volume_name
         Sample.driver Sample.volume) []
  = Outcome [Common (common.create_volume "volume-volume-7d1c" 10)]
      (inl (FreeNASApiError "backend error"))
      [Common (common.create_volume "volume-volume-7d1c" 10)].
Proof.
  apply (create_volume_storage_failure Sample.generate_freenas_volume_name
           (Sample.scripted (Sample.failing is_storage_creation))
           Sample.driver Sample.volume
           {| fn_name := "volume-volume-7d1c";
              fn_target := "target-volume-7d1c";
              fn_iqn := "iqn.2005-10.org.freenas.ctl:target-volume-7d1c" |});
    reflexivity.
Defined.

Lemma volume_name_failure_makes_no_call_witness :
  run (Sample.scripted (Sample.truenas "TrueNAS-12.0-U8.1" 0))
      (extend_volume Sample.invalid_name Sample.driver Sample.volume 20) []
  = Outcome [] (inl (OtherError "InvalidNameError" "volume-7d1c")) [].
Proof.
  apply (volume_name_failure_makes_no_call Sample.invalid_name
           (Sample.scripted (Sample.truenas "TrueNAS-12.0-U8.1" 0))
           Sample.driver Sample.volume 20 []).
  reflexivity.
Defined.

Lemma export_returns_provider_location_witness :
  exists d,
    returned (run (Sample.scripted (Sample.truenas "TrueNAS-12.0-U8.1" 0))
                (create_export Sample.driver Sample.volume) []) = inr d
    /\ d !! "provider_location" = Some (PyStr "/locator/volume-7d1c")
    /\ forall k, k <> "provider_location" -> d !! k = None.
Proof.
  apply (export_returns_provider_location
           (Sample.scripted (Sample.truenas "TrueNAS-12.0-U8.1" 0))
           Sample.driver Sample.volume []).
  reflexivity.
Defined.

Lemma snapshot_calls_same_pair_witness :
  let h := Sample.scripted (Sample.truenas "TrueNAS-12.0-U8.1" 0) in
  trace (run h (create_snapshot Sample.generate_freenas_volume_name
                  Sample.generate_freenas_snapshot_name
                  Sample.driver Sample.snapshot) [])
    = [Common (common.create_snapshot "snap-snapshot-55aa" "volume-volume-a001")]
  /\ trace (run h (delete_snapshot Sample.generate_freenas_volume_name
                     Sample.generate_freenas_snapshot_name
                     Sample.driver Sample.snapshot) [])
    = [Common (common.delete_snapshot "snap-snapshot-55aa" "volume-volume-a001")].
Proof.
  intros h.
  destruct (snapshot_calls_same_pair Sample.generate_freenas_volume_name
              Sample.generate_freenas_snapshot_name h
              Sample.driver Sample.snapshot
              {| fn_name := "snap-snapshot-55aa";
                 fn_target := "target-snapshot-55aa";
                 fn_iqn := "iqn.2005-10.org.freenas.ctl:target-snapshot-55aa" |}
              {| fn_name := "volume-volume-a001";
                 fn_target := "target-volume-a001";
                 fn_iqn := "iqn.2005-10.org.freenas.ctl:target-volume-a001" |}
              [] [] eq_refl eq_refl) as [-> ->].
  split; reflexivity.
Defined.

Lemma snapshot_name_failure_makes_no_call_witness :
  trace (run (Sample.scripted (Sample.truenas "TrueNAS-12.0-U8.1" 0))
           (create_volume_from_snapshot Sample.generate_freenas_volume_name
              Sample.invalid_name Sample.driver Sample.volume Sample.snapshot)
           []) = [].
Proof.
  apply (snapshot_name_failure_makes_no_call
           Sample.generate_freenas_volume_name Sample.invalid_name
           (Sample.scripted (Sample.truenas "TrueNAS-12.0-U8.1" 0))
           Sample.driver Sample.volume Sample.snapshot []
           (OtherError "InvalidNameError" "snapshot-55aa")).
  left. reflexivity.
Defined.

Lemma check_connection_without_sections_witness :
  attached_truenas_vol_count (Sample.sc_vols (Sample.no_sections 9)) = 9
  /\ returned (run (Sample.scripted (Sample.no_sections 9))
                 (check_connection Sample.parse_truenas_version Sample.driver) [])
     = inr true.
Proof.
  split; [vm_compute; reflexivity |].
  erewrite (check_connection_without_sections Sample.parse_truenas_version
              (Sample.scripted (Sample.no_sections 9)) Sample.driver
              "TrueNAS-12.0-U8.1" [PyStr "TrueNAS"; PyStr "12.0"; PyStr "U8.1"]
              (PyStr "12.0") (Sample.sc_tunable (Sample.no_sections 9))
              (Sample.sc_tunable (Sample.no_sections 9)) (10, 5) []);
    [reflexivity | reflexivity | reflexivity | reflexivity
     | by left | reflexivity | reflexivity | vm_compute; reflexivity
     | reflexivity].
Defined.

Lemma check_connection_non_decimal_tunable_witness :
  run (Sample.scripted Sample.superscript_tunable)
      (check_connection Sample.parse_truenas_version Sample.driver) []
  = Outcome [Common common.system_version; Common common.tunable;
             Common common.tunable]
      (inl (ValueError (String (ascii_of_N 178) EmptyString)))
      [Common common.system_version; Common common.tunable;
       Common common.tunable].
Proof.
  apply (check_connection_non_decimal_tunable Sample.parse_truenas_version
           (Sample.scripted Sample.superscript_tunable) Sample.driver
           "TrueNAS-12.0-U8.1" [PyStr "TrueNAS"; PyStr "12.0"; PyStr "U8.1"]
           (PyStr "12.0") (Sample.sc_tunable Sample.superscript_tunable)
           [] []
           (Sample.tunable_item "kern.cam.ctl.max_luns" true
              (String (ascii_of_N 178) EmptyString))
           "kern.cam.ctl.max_luns" (String (ascii_of_N 178) EmptyString)
           [] [Common common.system_version]
           [Common common.system_version; Common common.tunable]);
    try (vm_compute; reflexivity).
  - left. reflexivity.
  - constructor.
  - left. reflexivity.
Defined.

Lemma check_connection_default_limit_witness :
  returned (run (Sample.scripted (Sample.defaults_only 30))
              (check_connection Sample.parse_truenas_version Sample.driver) [])
  = inr true.
Proof.
  erewrite (check_connection_default_limit Sample.parse_truenas_version
              (Sample.scripted (Sample.defaults_only 30)) Sample.driver
              "TrueNAS-13.0-U6" [PyStr "TrueNAS"; PyStr "13.0"; PyStr "U6"]
              (PyStr "13.0") (Sample.sc_tunable (Sample.defaults_only 30))
              (Sample.sc_tunable (Sample.defaults_only 30)) "DEFAULT" []
              (Sample.sc_vols (Sample.defaults_only 30)) []);
    [vm_compute; reflexivity | reflexivity | reflexivity | reflexivity
     | by right | reflexivity | reflexivity | | reflexivity | reflexivity].
  constructor; [| constructor; [| constructor; [| constructor]]].
  - left. vm_compute. reflexivity.
  - right. left. vm_compute. split; reflexivity.
  - right. right. vm_compute. reflexivity.
Defined.

Lemma tunable_loop_last_wins_witness :
  tunable_loop
    [Sample.tunable_item "kern.cam.ctl.max_luns" true "10";
     Sample.tunable_item "kern.cam.ctl.max_ports" true "5";
     Sample.tunable_item "kern.cam.ctl.max_luns" true "64"] 1024 256
  = inr (64, 5).
Proof.
  apply (tunable_loop_last_wins
           [Sample.tunable_item "kern.cam.ctl.max_luns" true "10";
            Sample.tunable_item "kern.cam.ctl.max_ports" true "5"]
           (Sample.tunable_item "kern.cam.ctl.max_luns" true "64")
           1024 256 64 (10, 5));
    vm_compute; reflexivity.
Defined.

Lemma tunable_loop_limits_nonneg_witness :
  0 <= fst (10, 5) /\ 0 <= snd (10, 5).
Proof.
  apply (tunable_loop_limits_nonneg
           (Sample.sc_tunable (Sample.truenas "TrueNAS-12.0-U8.1" 0)) 1024 256);
    [lia | lia | vm_compute; reflexivity].
Defined.

Lemma attached_truenas_vol_count_row_witness :
  attached_truenas_vol_count [Sample.attached_row; Sample.attached_row] = 2
  /\ attached_truenas_vol_count
       [Sample.attached_row;
        {| row_host := Some "@ixsystems-iscsi#pool";
           row_attach_status := "attached" |}] = 1.
Proof.
  split.
  - apply (attached_truenas_vol_count_row [Sample.attached_row] []
             Sample.attached_row).
    eexists. split; [reflexivity |]. split; [vm_compute |]; reflexivity.
  - apply (attached_truenas_vol_count_row [Sample.attached_row] []
             {| row_host := Some "@ixsystems-iscsi#pool";
                row_attach_status := "attached" |}).
    intros (host & [= <-] & Hfind & _). vm_compute in Hfind. discriminate.
Defined.

Lemma initialize_connection_check_failure_witness :
  run (Sample.scripted Sample.superscript_tunable)
      (initialize_connection Sample.generate_freenas_volume_name
         Sample.generate_freenas_snapshot_name Sample.get_iscsi_portal
         Sample.parse_truenas_version Sample.driver Sample.volume
         Sample.connector) []
  = Outcome [Common common.system_version; Common common.tunable;
             Common common.tunable]
      (inl (ValueError (String (ascii_of_N 178) EmptyString)))
      [Common common.system_version; Common common.tunable;
       Common common.tunable].
Proof.
  rewrite (initialize_connection_check_failure
             Sample.generate_freenas_volume_name
             Sample.generate_freenas_snapshot_name Sample.get_iscsi_portal
             Sample.parse_truenas_version
             (Sample.scripted Sample.superscript_tunable)
             Sample.driver Sample.volume Sample.connector []
             (ValueError (String (ascii_of_N 178) EmptyString)));
    vm_compute; reflexivity.
Defined.

Lemma create_volume_from_snapshot_promotion_failure_witness :
  run (Sample.scripted (Sample.failing is_promotion))
      (create_volume_from_snapshot Sample.generate_freenas_volume_name
         Sample.generate_freenas_snapshot_name
         Sample.driver Sample.volume Sample.snapshot) []
  = Outcome
      [Common (common.create_volume_from_snapshot "volume-volume-7d1c"
                 "snap-snapshot-55aa" "volume-volume-a001");
       Common (common.create_iscsitarget "target-volume-7d1c"
                 "volume-volume-7d1c");
       Common (common.is_service_project "service");
       Common (common.promote_volume "volume-volume-7d1c")]
      (inl (FreeNASApiError "backend error"))
      [Common (common.create_volume_from_snapshot "volume-volume-7d1c"
                 "snap-snapshot-55aa" "volume-volume-a001");
       Common (common.create_iscsitarget "target-volume-7d1c"
                 "volume-volume-7d1c");
       Common (common.is_service_project "service");
       Common (common.promote_volume "volume-volume-7d1c")].
Proof.
  eapply (create_volume_from_snapshot_promotion_failure
            Sample.generate_freenas_volume_name
            Sample.generate_freenas_snapshot_name
            (Sample.scripted (Sample.failing is_promotion))
            Sample.driver Sample.volume Sample.snapshot
            {| fn_name := "volume-volume-a001"; fn_target := "target-volume-a001";
               fn_iqn := "iqn.2005-10.org.freenas.ctl:target-volume-a001" |}
            {| fn_name := "snap-snapshot-55aa"; fn_target := "target-snapshot-55aa";
               fn_iqn := "iqn.2005-10.org.freenas.ctl:target-snapshot-55aa" |}
            {| fn_name := "volume-volume-7d1c"; fn_target := "target-volume-7d1c";
               fn_iqn := "iqn.2005-10.org.freenas.ctl:target-volume-7d1c" |});
    reflexivity.
Defined.

Lemma create_volume_from_snapshot_without_display_name_witness :
  returned (run (Sample.scripted (Sample.truenas "TrueNAS-12.0-U8.1" 0))
              (create_volume_from_snapshot Sample.generate_freenas_volume_name
                 Sample.generate_freenas_snapshot_name
                 Sample.driver Sample.unnamed_volume Sample.snapshot) [])
  = inl (TypeError "expected string or bytes-like object").
Proof.
  erewrite (create_volume_from_snapshot_without_display_name
              Sample.generate_freenas_volume_name
              Sample.generate_freenas_snapshot_name
              (Sample.scripted (Sample.truenas "TrueNAS-12.0-U8.1" 0))
              Sample.driver Sample.unnamed_volume Sample.snapshot);
    reflexivity.
Defined.

Lemma create_volume_from_snapshot_short_circuit_witness :
  run (Sample.scripted (Sample.truenas "TrueNAS-12.0-U8.1" 0))
      (create_volume_from_snapshot Sample.generate_freenas_volume_name
         Sample.generate_freenas_snapshot_name
         Sample.driver_no_cache Sample.unnamed_volume Sample.snapshot) []
  = Outcome
      [Common (common.create_volume_from_snapshot "volume-volume-9e0f"
                 "snap-snapshot-55aa" "volume-volume-a001");
       Common (common.create_iscsitarget "target-volume-9e0f"
                 "volume-volume-9e0f")]
      (inr tt)
      [Common (common.create_volume_from_snapshot "volume-volume-9e0f"
                 "snap-snapshot-55aa" "volume-volume-a001");
       Common (common.create_iscsitarget "target-volume-9e0f"
                 "volume-volume-9e0f")].
Proof.
  eapply (create_volume_from_snapshot_short_circuit
            Sample.generate_freenas_volume_name
            Sample.generate_freenas_snapshot_name
            (Sample.scripted (Sample.truenas "TrueNAS-12.0-U8.1" 0))
            Sample.driver_no_cache Sample.unnamed_volume Sample.snapshot
            {| fn_name := "volume-volume-a001"; fn_target := "target-volume-a001";
               fn_iqn := "iqn.2005-10.org.freenas.ctl:target-volume-a001" |}
            {| fn_name := "snap-snapshot-55aa"; fn_target := "target-snapshot-55aa";
               fn_iqn := "iqn.2005-10.org.freenas.ctl:target-snapshot-55aa" |}
            {| fn_name := "volume-volume-9e0f"; fn_target := "target-volume-9e0f";
               fn_iqn := "iqn.2005-10.org.freenas.ctl:target-volume-9e0f" |});
    reflexivity.
Defined.

Lemma create_volume_from_snapshot_failures_witness :
  run (Sample.scripted (Sample.failing is_clone_from_snapshot))
      (create_volume_from_snapshot Sample.generate_freenas_volume_name
         Sample.generate_freenas_snapshot_name
         Sample.driver Sample.volume Sample.snapshot) []
  = Outcome
      [Common (common.create_volume_from_snapshot "volume-volume-7d1c"
                 "snap-snapshot-55aa" "volume-volume-a001")]
      (inl (FreeNASApiError "backend error"))
      [Common (common.create_volume_from_snapshot "volume-volume-7d1c"
                 "snap-snapshot-55aa" "volume-volume-a001")].
Proof.
  eapply (create_volume_from_snapshot_failures
            Sample.generate_freenas_volume_name
            Sample.generate_freenas_snapshot_name
            (Sample.scripted (Sample.failing is_clone_from_snapshot))
            Sample.driver Sample.volume Sample.snapshot
            {| fn_name := "volume-volume-a001"; fn_target := "target-volume-a001";
               fn_iqn := "iqn.2005-10.org.freenas.ctl:target-volume-a001" |}
            {| fn_name := "snap-snapshot-55aa"; fn_target := "target-snapshot-55aa";
               fn_iqn := "iqn.2005-10.org.freenas.ctl:target-snapshot-55aa" |}
            {| fn_name := "volume-volume-7d1c"; fn_target := "target-volume-7d1c";
               fn_iqn := "iqn.2005-10.org.freenas.ctl:target-volume-7d1c" |});
    reflexivity.
Defined.

Lemma get_volume_stats_refresh_then_read_witness :
  let h := Sample.scripted (Sample.truenas "TrueNAS-12.0-U8.1" 0) in
  let fresh := Sample.sc_stats (Sample.truenas "TrueNAS-12.0-U8.1" 0) in
  run h (get_volume_stats Sample.driver true ≫=
           fun refreshed => get_volume_stats (snd refreshed) false) []
  = Outcome [Common common.update_volume_stats]
      (inr (fresh, {| self_configuration := self_configuration Sample.driver;
                      self_stats := fresh |}))
      [Common common.update_volume_stats].
Proof.
  intros h fresh.
  apply (get_volume_stats_refresh_then_read h Sample.driver fresh []).
  reflexivity.
Defined.

Lemma get_volume_stats_returns_cache_witness :
  let fresh := Sample.sc_stats (Sample.truenas "TrueNAS-12.0-U8.1" 0) in
  let driver' := {| self_configuration := self_configuration Sample.driver;
                    self_stats := fresh |} in
  self_stats driver' = fresh
  /\ self_configuration driver' = self_configuration Sample.driver
  /\ trace (run (Sample.scripted (Sample.truenas "TrueNAS-12.0-U8.1" 0))
              (get_volume_stats Sample.driver true) [])
     = [Common common.update_volume_stats].
Proof.
  intros fresh driver'.
  apply (get_volume_stats_returns_cache
           (Sample.scripted (Sample.truenas "TrueNAS-12.0-U8.1" 0))
           Sample.driver driver' true fresh []).
  reflexivity.
Defined.

Lemma create_cloned_volume_failures_witness :
  run (Sample.scripted (Sample.failing is_clone_from_snapshot))
      (create_cloned_volume Sample.generate_freenas_volume_name
         Sample.generate_freenas_snapshot_name
         Sample.driver Sample.volume Sample.source_volume) []
  = Outcome
      [Common (common.create_snapshot "snap-name-7d1c" "volume-volume-a001");
       Common (common.create_volume_from_snapshot "volume-volume-7d1c"
                 "snap-name-7d1c" "volume-volume-a001")]
      (inl (FreeNASApiError "backend error"))
      [Common (common.create_snapshot "snap-name-7d1c" "volume-volume-a001");
       Common (common.create_volume_from_snapshot "volume-volume-7d1c"
                 "snap-name-7d1c" "volume-volume-a001")].
Proof.
  eapply (create_cloned_volume_failures
            Sample.generate_freenas_volume_name
            Sample.generate_freenas_snapshot_name
            (Sample.scripted (Sample.failing is_clone_from_snapshot))
            Sample.driver Sample.volume Sample.source_volume
            {| fn_name := "snap-name-7d1c"; fn_target := "target-name-7d1c";
               fn_iqn := "iqn.2005-10.org.freenas.ctl:target-name-7d1c" |}
            {| fn_name := "volume-volume-a001"; fn_target := "target-volume-a001";
               fn_iqn := "iqn.2005-10.org.freenas.ctl:target-volume-a001" |}
            {| fn_name := "volume-volume-7d1c"; fn_target := "target-volume-7d1c";
               fn_iqn := "iqn.2005-10.org.freenas.ctl:target-volume-7d1c" |});
    reflexivity.
Defined.

(** ** The matcher decides the prefix language *)

Lemma append_empty (s1 s2 : string) : s1 ++ s2 = "" -> s1 = "" /\ s2 = "".
Proof. destruct s1; cbn; [auto | discriminate]. Qed.

Lemma nullable_matches (r : regex) : nullable r = true <-> matches r "".
Proof.
  split.
  - induction r as [| | p | r1 IH1 r2 IH2 | r1 IH1 r2 IH2 | r IH]; cbn;
      intros Hnull; try discriminate.
    + constructor.
    + apply andb_true_iff in Hnull as [H1 H2].
      apply (matches_cat r1 r2 "" ""); auto.
    + apply orb_true_iff in Hnull as [H1 | H2];
        [apply matches_alt_l | apply matches_alt_r]; auto.
    + constructor.
  - remember "" as s eqn:Hs. intros Hm.
    induction Hm as [| p c Hp | r1 r2 s1 s2 _ IH1 _ IH2 | r1 r2 s _ IH
                     | r1 r2 s _ IH | r | r s1 s2 _ _ _ _]; cbn;
      try reflexivity; try discriminate.
    + apply append_empty in Hs as [-> ->]. by rewrite IH1, IH2.
    + by rewrite IH.
    + rewrite IH by done. apply orb_true_r.
Qed.

Lemma matches_star_head (r : regex) (c : ascii) (s : string) :
  matches (RStar r) (String c s) ->
  exists s1 s2, s = s1 ++ s2 /\ matches r (String c s1) /\ matches (RStar r) s2.
Proof.
  remember (RStar r) as q eqn:Hq. remember (String c s) as t eqn:Ht.
  intros Hm. revert Hq Ht.
  induction Hm as [| | | | | | r' s1 s2 Hm1 _ Hm2 IH2]; try discriminate.
  intros [= ->] Ht. destruct s1 as [| c1 s1'].
  - by apply IH2.
  - change (String c1 (s1' ++ s2) = String c s) in Ht.
    injection Ht as -> <-. by exists s1', s2.
Qed.

Lemma deriv_matches (r : regex) (c : ascii) (s : string) :
  matches (deriv c r) s <-> matches r (String c s).
Proof.
  revert s.
  induction r as [| | p | r1 IH1 r2 IH2 | r1 IH1 r2 IH2 | r IH]; intros s; cbn.
  - split; intros Hm; inversion Hm.
  - split; intros Hm; inversion Hm.
  - destruct (p c) eqn:Hp; split; intros Hm; inversion Hm; subst.
    + by constructor.
    + constructor.
    + congruence.
  - split.
    + intros Hm. destruct (nullable r1) eqn:Hnull.
      * inversion Hm as [| | | ? ? ? Hl | ? ? ? Hr | |]; subst.
        -- inversion Hl as [| | ? ? s1 s2 H1 H2 | | | |]; subst.
           apply IH1 in H1. apply (matches_cat r1 r2 (String c s1) s2); auto.
        -- apply IH2 in Hr. apply nullable_matches in Hnull.
           apply (matches_cat r1 r2 "" (String c s)); auto.
      * inversion Hm as [| | ? ? s1 s2 H1 H2 | | | |]; subst.
        apply IH1 in H1. apply (matches_cat r1 r2 (String c s1) s2); auto.
    + intros Hm. inversion Hm as [| | ? ? s1 s2 H1 H2 | | | |]; subst.
      match goal with Hs : _ ++ _ = String _ _ |- _ => rename Hs into Heq end.
      destruct s1 as [| c1 s1'].
      * change (s2 = String c s) in Heq. subst s2. apply IH2 in H2.
        apply nullable_matches in H1. rewrite H1. by apply matches_alt_r.
      * change (String c1 (s1' ++ s2) = String c s) in Heq.
        injection Heq as -> <-. apply IH1 in H1.
        destruct (nullable r1); [apply matches_alt_l |]; by constructor.
  - split; intros Hm; inversion Hm; subst;
      solve [apply matches_alt_l; by apply IH1
            | apply matches_alt_r; by apply IH2].
  - split.
    + intros Hm. inversion Hm as [| | ? ? s1 s2 H1 H2 | | | |]; subst.
      apply IH in H1. apply (matches_star_cons r (String c s1) s2); auto.
    + intros Hm. apply matches_star_head in Hm as (s1 & s2 & -> & H1 & H2).
      apply IH in H1. by constructor.
Qed.

Lemma cat_pruned_matches (p q : regex) (s : string) :
  matches (cat_pruned p q) s <-> matches (RCat p q) s.
Proof.
  assert (forall r, ~ matches RNone r) as Hnone by (intros r Hm; inversion Hm).
  assert (forall t, matches REps t -> t = "") as Heps
    by (intros t Hm; by inversion Hm).
  split.
  - destruct p, q; cbn; intros Hm; try (by apply Hnone in Hm); try done;
      by apply (matches_cat REps _ "" s); [constructor |].
  - intros Hm. inversion Hm as [| | ? ? s1 s2 H1 H2 | | | |]; subst.
    destruct p; cbn; try (by apply Hnone in H1);
      destruct q; cbn; try (by apply Hnone in H2);
      try (by constructor);
      apply Heps in H1; subst s1; cbn; done.
Qed.

Lemma alt_pruned_matches (p q : regex) (s : string) :
  matches (alt_pruned p q) s <-> matches (RAlt p q) s.
Proof.
  assert (forall r, ~ matches RNone r) as Hnone by (intros r Hm; inversion Hm).
  split.
  - destruct p, q; cbn; intros Hm; try (by apply Hnone in Hm); try done;
      solve [by apply matches_alt_l | by apply matches_alt_r].
  - intros Hm. inversion Hm as [| | | ? ? ? Hl | ? ? ? Hr | |]; subst.
    + destruct p; cbn; try (by apply Hnone in Hl);
        destruct q; cbn; try done; by apply matches_alt_l.
    + destruct q; cbn; try (by apply Hnone in Hr);
        destruct p; cbn; try done; by apply matches_alt_r.
Qed.

Lemma prune_matches (r : regex) (s : string) :
  matches (prune r) s <-> matches r s.
Proof.
  revert s.
  induction r as [| | p | r1 IH1 r2 IH2 | r1 IH1 r2 IH2 | r IH]; intros s;
    cbn; try reflexivity.
  - rewrite cat_pruned_matches. split; intros Hm;
      inversion Hm as [| | ? ? s1 s2 H1 H2 | | | |]; subst;
      constructor; (by apply IH1) || (by apply IH2).
  - rewrite alt_pruned_matches. split; intros Hm; inversion Hm; subst;
      solve [apply matches_alt_l; by apply IH1
            | apply matches_alt_r; by apply IH2].
Qed.

(** [re_match r s] holds exactly when a prefix of [s] is in the language
    of [r], which is when [re.match] returns a match object. *)
Lemma re_match_prefix (r : regex) (s : string) :
  re_match r s = true <-> exists s1 s2, s = s1 ++ s2 /\ matches r s1.
Proof.
  revert r. induction s as [| c s IH]; intros r; cbn.
  - rewrite orb_false_r, nullable_matches. split.
    + intros Hm. by exists "", "".
    + intros (s1 & s2 & Heq & Hm). symmetry in Heq.
      by apply append_empty in Heq as [-> _].
  - rewrite orb_true_iff, nullable_matches, IH. split.
    + intros [Hm | (s1 & s2 & -> & Hm)].
      * by exists "", (String c s).
      * exists (String c s1), s2. split; [done |].
        by apply deriv_matches, prune_matches.
    + intros (s1 & s2 & Heq & Hm). destruct s1 as [| c1 s1'].
      * by left.
      * change (String c s = String c1 (s1' ++ s2)) in Heq.
        injection Heq as <- ->. right. exists s1', s2.
        split; [done |]. by apply prune_matches, deriv_matches.
Qed.

(** ** Which display names the image-cache pattern accepts *)

Lemma append_assoc (s1 s2 s3 : string) : (s1 ++ s2) ++ s3 = s1 ++ (s2 ++ s3).
Proof.
  induction s1 as [| c s1 IH]; [reflexivity |].
  change (String c ((s1 ++ s2) ++ s3) = String c (s1 ++ (s2 ++ s3))).
  by rewrite IH.
Qed.

Lemma matches_cat_inv (r1 r2 : regex) (s : string) :
  matches (RCat r1 r2) s <->
  exists s1 s2, s = s1 ++ s2 /\ matches r1 s1 /\ matches r2 s2.
Proof.
  split.
  - intros Hm. inversion Hm as [| | ? ? s1 s2 H1 H2 | | | |]; subst. eauto.
  - intros (s1 & s2 & -> & H1 & H2). by constructor.
Qed.

Lemma matches_lit (l s : string) : matches (RLit l) s <-> s = l.
Proof.
  revert s. induction l as [| c l IH]; intros s; cbn.
  - split; [intros Hm; by inversion Hm | intros ->; constructor].
  - rewrite matches_cat_inv. split.
    + intros (s1 & s2 & -> & H1 & H2). apply IH in H2 as ->.
      inversion H1 as [| p c' Hc | | | | |]; subst.
      apply Ascii.eqb_eq in Hc as <-. reflexivity.
    + intros ->. exists (String c ""), l. split; [reflexivity |].
      split; [| by apply IH]. constructor. apply Ascii.eqb_refl.
Qed.

Lemma matches_class_star (p : ascii -> bool) (s : string) :
  matches (RStar (RClass p)) s <-> all_chars p s = true.
Proof.
  split.
  - remember (RStar (RClass p)) as r eqn:Hr. intros Hm. revert Hr.
    induction Hm as [| | | | | | r' s1 s2 Hm1 _ Hm2 IH2]; try discriminate;
      intros [= ->]; [reflexivity |].
    inversion Hm1 as [| p' c Hc | | | | |]; subst.
    change (p c && all_chars p s2 = true). rewrite Hc. by apply IH2.
  - induction s as [| c s IH]; cbn; [constructor |].
    intros [Hc Hs]%andb_true_iff.
    apply (matches_star_cons (RClass p) (String c "") s); [by constructor | auto].
Qed.

Lemma matches_class_plus (p : ascii -> bool) (s : string) :
  matches (RPlus (RClass p)) s <-> char_group p s.
Proof.
  unfold RPlus, char_group. rewrite matches_cat_inv. split.
  - intros (s1 & s2 & -> & H1 & H2). apply matches_class_star in H2.
    inversion H1 as [| p' c Hc | | | | |]; subst. split; [discriminate |].
    change (p c && all_chars p s2 = true). by rewrite Hc.
  - intros [Hne Hall]. destruct s as [| c s]; [done |].
    cbn in Hall. apply andb_true_iff in Hall as [Hc Hs].
    exists (String c ""), s. split; [reflexivity |].
    split; [by constructor | by apply matches_class_star].
Qed.

(** X27. The display names that [re.match] accepts for the image-cache
    pattern are exactly those that begin with ["image-"], a run of letters
    and digits, and four more runs of lower-case letters and digits, each
    introduced by a dash; whatever follows the fifth run is not looked
    at. *)
Theorem image_cache_pattern_accepts (display_name : string) :
  re_match image_cache_pattern display_name = true <->
  exists g1 g2 g3 g4 g5 rest,
    display_name
      = "image-" ++ g1 ++ "-" ++ g2 ++ "-" ++ g3 ++ "-" ++ g4 ++ "-" ++ g5 ++ rest
    /\ char_group class_alnum g1
    /\ char_group class_lower_digit g2
    /\ char_group class_lower_digit g3
    /\ char_group class_lower_digit g4
    /\ char_group class_lower_digit g5.
Proof.
  rewrite re_match_prefix. unfold image_cache_pattern. split.
  - intros (s1 & rest & -> & Hm).
    apply matches_cat_inv in Hm as (l0 & t0 & -> & Hl0 & Hm).
    apply matches_lit in Hl0 as ->.
    apply matches_cat_inv in Hm as (g1 & t1 & -> & Hg1 & Hm).
    apply matches_class_plus in Hg1.
    apply matches_cat_inv in Hm as (l1 & t2 & -> & Hl1 & Hm).
    apply matches_lit in Hl1 as ->.
    apply matches_cat_inv in Hm as (g2 & t3 & -> & Hg2 & Hm).
    apply matches_class_plus in Hg2.
    apply matches_cat_inv in Hm as (l2 & t4 & -> & Hl2 & Hm).
    apply matches_lit in Hl2 as ->.
    apply matches_cat_inv in Hm as (g3 & t5 & -> & Hg3 & Hm).
    apply matches_class_plus in Hg3.
    apply matches_cat_inv in Hm as (l3 & t6 & -> & Hl3 & Hm).
    apply matches_lit in Hl3 as ->.
    apply matches_cat_inv in Hm as (g4 & t7 & -> & Hg4 & Hm).
    apply matches_class_plus in Hg4.
    apply matches_cat_inv in Hm as (l4 & g5 & -> & Hl4 & Hg5).
    apply matches_lit in Hl4 as ->.
    apply matches_class_plus in Hg5.
    exists g1, g2, g3, g4, g5, rest.
    split; [by rewrite !append_assoc | done].
  - intros (g1 & g2 & g3 & g4 & g5 & rest & -> & H1 & H2 & H3 & H4 & H5).
    exists ("image-" ++ g1 ++ "-" ++ g2 ++ "-" ++ g3 ++ "-" ++ g4 ++ "-" ++ g5),
      rest.
    split; [by rewrite !append_assoc |].
    apply (matches_cat (RLit "image-") _ "image-"); [by apply matches_lit |].
    apply (matches_cat _ _ g1); [by apply matches_class_plus |].
    apply (matches_cat (RLit "-") _ "-"); [by apply matches_lit |].
    apply (matches_cat _ _ g2); [by apply matches_class_plus |].
    apply (matches_cat (RLit "-") _ "-"); [by apply matches_lit |].
    apply (matches_cat _ _ g3); [by apply matches_class_plus |].
    apply (matches_cat (RLit "-") _ "-"); [by apply matches_lit |].
    apply (matches_cat _ _ g4); [by apply matches_class_plus |].
    apply (matches_cat (RLit "-") _ "-"); [by apply matches_lit |].
    by apply matches_class_plus.
Qed.

(** ** The helpers on examples *)

Example image_cache_pattern_uuid :
  re_match image_cache_pattern "image-0f2e1d3c-4b5a-6978-8a9b-0c1d2e3f4a5b" = true.
Proof. vm_compute. reflexivity. Qed.

Example image_cache_pattern_prefix_only :
  re_match image_cache_pattern "image-A-b-c-d-e and more" = true.
Proof. vm_compute. reflexivity. Qed.

Example image_cache_pattern_upper_tail :
  re_match image_cache_pattern "image-abc-DEF-1-2-3" = false.
Proof. vm_compute. reflexivity. Qed.

Example image_cache_pattern_not_at_start :
  re_match image_cache_pattern "my-image-a-b-c-d-e" = false.
Proof. vm_compute. reflexivity. Qed.

Example isnumeric_examples :
  isnumeric "256" = true /\ isnumeric "" = false /\ isnumeric "-1" = false
  /\ isnumeric "1.5" = false /\ isnumeric (py_str (PyInt 42)) = true
  /\ isnumeric (py_str PyNone) = false
  /\ isnumeric (String (ascii_of_N 178) EmptyString) = true.
Proof. vm_compute. repeat split. Qed.

Example int_of_str_examples :
  int_of_str "256" = inr 256 /\ int_of_str "007" = inr 7
  /\ int_of_str (String (ascii_of_N 178) EmptyString)
     = inl (ValueError (String (ascii_of_N 178) EmptyString)).
Proof. vm_compute. repeat split. Qed.
